(** * C64 Ultimate64 stream viewer: frame assembly, pixel decoding,
      packet validation, stream commands and the audio DC blocker.

    Shallow embedding of [c64_stream_viewer.py] (frame assembler, pixel
    decoding, the receive loop of [main]) and of [c64_stream_viewer_av.py]
    ([send_ultimate64_stream_command], [AudioPlayer._remove_dc_offset]).

    Python integers are [Z]; [bytes] objects are [list byte]; the
    [packets] dictionary is an association list kept in insertion order
    (the order in which [dict.items()] iterates); exceptions are values
    of [exn]. *)

From Stdlib Require Import ZArith List Bool Lia QArith String Ascii.
From Stdlib Require Import Strings.Byte.
From Stdlib Require Import DecimalString Qround.
From stdpp Require Import base list.
Import ListNotations.

Local Open Scope Z_scope.

(** ** Python values *)

Abbreviation bytes := (list byte).

Inductive exn : Type :=
  | ZeroDivisionError
  | ValueError
  | IndexError
  | StructError
  | UnicodeEncodeError.

(** Result of a call that may raise. *)
Inductive result (A : Type) : Type :=
  | Ok (a : A)
  | Raise (e : exn).
Arguments Ok {A} a.
Arguments Raise {A} e.

Definition rbind {A B} (r : result A) (k : A -> result B) : result B :=
  match r with
  | Ok a => k a
  | Raise e => Raise e
  end.

Notation "'try' x <- r ; k" := (rbind r (fun x => k))
  (at level 10, x name, r at level 100, k at level 200).

(** The integer value of a byte, as iterating a [bytes] object yields it. *)
Definition byte_val (b : byte) : Z := Z.of_N (Byte.to_N b).

(** ** Constants from c64-protocol.h *)

Definition VIDEO_PACKET_SIZE : Z := 780.
Definition VIDEO_HEADER_SIZE : Z := 12.
Definition PIXELS_PER_LINE : Z := 384.
Definition BYTES_PER_LINE : Z := 192.
Definition LINES_PER_PACKET : Z := 4.
Definition PAL_HEIGHT : Z := 272.
Definition NTSC_HEIGHT : Z := 240.

(** ** Dictionaries in insertion order

    [d[k] = v]: an existing key keeps its position and gets the new
    value, a new key is appended. *)

Fixpoint dict_set {V : Type} (k : Z) (v : V) (d : list (Z * V)) : list (Z * V) :=
  match d with
  | [] => [(k, v)]
  | (k', v') :: d' =>
      if Z.eqb k' k then (k, v) :: d' else (k', v') :: dict_set k v d'
  end.

Fixpoint dict_get {V : Type} (k : Z) (d : list (Z * V)) : option V :=
  match d with
  | [] => None
  | (k', v') :: d' => if Z.eqb k' k then Some v' else dict_get k d'
  end.

(** ** class C64FrameAssembler *)

Record C64FrameAssembler : Type := mkAssembler {
  current_frame_num : option Z;          (* None until the first packet *)
  packets : list (Z * (Z * bytes));      (* packet_index -> (line_num, pixel_data) *)
  expected_packets : Z;
  height : Z
}.

(** [C64FrameAssembler.__init__] *)
Definition assembler_init : C64FrameAssembler :=
  {| current_frame_num := None;
     packets := [];
     expected_packets := 0;
     height := PAL_HEIGHT |}.

(** [self.current_frame_num != frame_num] *)
Definition frame_differs (cur : option Z) (frame_num : Z) : bool :=
  match cur with
  | None => true
  | Some f => negb (Z.eqb f frame_num)
  end.

(** The first statement of [add_packet]: start a new frame if needed. *)
Definition start_frame (self : C64FrameAssembler) (frame_num : Z) : C64FrameAssembler :=
  if frame_differs (current_frame_num self) frame_num then
    {| current_frame_num := Some frame_num;
       packets := [];
       expected_packets := 0;
       height := height self |}
  else self.

(** [add_packet]. The object is mutated in place, so the state after the
    call is returned also when [line_num // lines_per_packet] raises. *)
Definition add_packet (self : C64FrameAssembler)
    (frame_num line_num lines_per_packet : Z) (pixel_data : bytes)
    (is_last : bool) : C64FrameAssembler * option exn :=
  let self1 := start_frame self frame_num in
  if Z.eqb lines_per_packet 0 then (self1, Some ZeroDivisionError)
  else
    let packet_index := line_num / lines_per_packet in
    let self2 :=
      {| current_frame_num := current_frame_num self1;
         packets := dict_set packet_index (line_num, pixel_data) (packets self1);
         expected_packets := expected_packets self1;
         height := height self1 |} in
    if is_last then
      ({| current_frame_num := current_frame_num self2;
          packets := packets self2;
          expected_packets := packet_index + 1;
          height := line_num + lines_per_packet |}, None)
    else (self2, None).

(** [is_complete] *)
Definition is_complete (self : C64FrameAssembler) : bool :=
  if Z.eqb (expected_packets self) 0 then false
  else Z.geb (Z.of_nat (length (packets self))) (expected_packets self).

(** One call of [add_packet], with its arguments. *)
Record call : Type := mkCall {
  c_frame : Z;
  c_line : Z;
  c_lpp : Z;
  c_data : bytes;
  c_last : bool
}.

Definition add_call (self : C64FrameAssembler) (c : call) : C64FrameAssembler :=
  fst (add_packet self (c_frame c) (c_line c) (c_lpp c) (c_data c) (c_last c)).

(** The assembler after a sequence of [add_packet] calls. *)
Definition run (self : C64FrameAssembler) (cs : list call) : C64FrameAssembler :=
  fold_left add_call cs self.

(** ** Python sequences *)

(** [range(n)] *)
Definition py_range (n : Z) : list Z := map Z.of_nat (seq 0 (Z.to_nat n)).

(** [b[lo:hi]] for non-negative [lo] and [hi]. *)
Definition py_slice {A : Type} (b : list A) (lo hi : Z) : list A :=
  take (Z.to_nat (hi - lo)) (drop (Z.to_nat lo) b).

(** Python and NumPy index normalisation on an axis of length [n]:
    a negative index counts from the end, anything out of range raises. *)
Definition norm_index (n : nat) (i : Z) : result nat :=
  if (0 <=? i) && (i <? Z.of_nat n) then Ok (Z.to_nat i)
  else if (i <? 0) && (- Z.of_nat n <=? i) then Ok (Z.to_nat (i + Z.of_nat n))
  else Raise IndexError.

(** [l[i]] *)
Definition py_getitem {A : Type} (l : list A) (i : Z) : result A :=
  try k <- norm_index (length l) i;
  match l !! k with
  | Some a => Ok a
  | None => Raise IndexError
  end.

(** ** The VIC-II palette *)

Definition VIC_COLORS_BGRA : list Z :=
  [ 0xFF000000; 0xFFEFEFEF; 0xFF342F8D; 0xFFCDD46A;
    0xFFA43598; 0xFF42B44C; 0xFFB1292C; 0xFF5DEFEF;
    0xFF204E98; 0xFF00385B; 0xFF6D67D1; 0xFF4A4A4A;
    0xFF7B7B7B; 0xFF93EF9F; 0xFFEF6A6D; 0xFFB2B2B2 ].

Abbreviation color := (Z * Z * Z)%type.

(** The body of the conversion loop: one BGRA word to a (b, g, r) tuple. *)
Definition bgra_to_bgr (bgra : Z) : color :=
  let r := Z.land bgra 0xFF in
  let g := Z.land (Z.shiftr bgra 8) 0xFF in
  let b := Z.land (Z.shiftr bgra 16) 0xFF in
  (b, g, r).

Definition VIC_COLORS_BGR : list color := map bgra_to_bgr VIC_COLORS_BGRA.

(** ** The frame buffer: [np.zeros((height, PIXELS_PER_LINE, 3))] *)

Abbreviation frame := (list (list color)).

Definition zero_color : color := (0, 0, 0).

Definition np_zeros (h w : Z) : result frame :=
  if (h <? 0) || (w <? 0) then Raise ValueError
  else Ok (replicate (Z.to_nat h) (replicate (Z.to_nat w) zero_color)).

(** [frame[row, col] = c] *)
Definition frame_set (f : frame) (row col : Z) (c : color) : result frame :=
  try r <- norm_index (length f) row;
  match f !! r with
  | Some line =>
      try x <- norm_index (length line) col;
      Ok (<[r := <[x := c]> line]> f)
  | None => Raise IndexError
  end.

(** ** [C64FrameAssembler.get_frame] *)

(** The two palette indices packed in one byte (low nibble, high nibble). *)
Definition nibbles (byte_val : Z) : Z * Z :=
  (Z.land byte_val 0x0F, Z.land (Z.shiftr byte_val 4) 0x0F).

(** [for byte_idx, byte_val in enumerate(line_data)], from [byte_idx] on. *)
Fixpoint decode_line (f : frame) (current_line byte_idx : Z) (line_data : bytes)
    : result frame :=
  match line_data with
  | [] => Ok f
  | b :: rest =>
      let '(pixel1, pixel2) := nibbles (byte_val b) in
      let x := byte_idx * 2 in
      try f1 <-
        (if x <? PIXELS_PER_LINE then
           try c <- py_getitem VIC_COLORS_BGR pixel1;
           frame_set f current_line x c
         else Ok f);
      try f2 <-
        (if x + 1 <? PIXELS_PER_LINE then
           try c <- py_getitem VIC_COLORS_BGR pixel2;
           frame_set f1 current_line (x + 1) c
         else Ok f1);
      decode_line f2 current_line (byte_idx + 1) rest
  end.

(** [for line_offset in range(LINES_PER_PACKET)], over the remaining
    offsets; the loop is left at the first line at or below [height]. *)
Fixpoint decode_packet (f : frame) (height line_num : Z) (pixel_data : bytes)
    (offsets : list Z) : result frame :=
  match offsets with
  | [] => Ok f
  | line_offset :: rest =>
      let current_line := line_num + line_offset in
      if current_line >=? height then Ok f
      else
        let line_start := line_offset * BYTES_PER_LINE in
        let line_end := line_start + BYTES_PER_LINE in
        let line_data := py_slice pixel_data line_start line_end in
        try f1 <- decode_line f current_line 0 line_data;
        decode_packet f1 height line_num pixel_data rest
  end.

(** [for packet_idx, (line_num, pixel_data) in self.packets.items()] *)
Fixpoint assemble (f : frame) (height : Z) (items : list (Z * (Z * bytes)))
    : result frame :=
  match items with
  | [] => Ok f
  | (packet_idx, (line_num, pixel_data)) :: rest =>
      try f1 <- decode_packet f height line_num pixel_data (py_range LINES_PER_PACKET);
      assemble f1 height rest
  end.

Definition get_frame (self : C64FrameAssembler) : result (option frame) :=
  if negb (is_complete self) then Ok None
  else
    try f <- np_zeros (height self) PIXELS_PER_LINE;
    try f' <- assemble f (height self) (packets self);
    Ok (Some f').

(** ** The receive loop of [main] *)

(** A little-endian unsigned 16-bit field. *)
Definition u16le (lo hi : byte) : Z := byte_val lo + 256 * byte_val hi.

(** [struct.unpack('<HHHHBB', b)] *)
Definition unpack_HHHHBB (b : bytes) : result (Z * Z * Z * Z * Z * Z) :=
  match b with
  | [b0; b1; b2; b3; b4; b5; b6; b7; b8; b9] =>
      Ok (u16le b0 b1, u16le b2 b3, u16le b4 b5, u16le b6 b7,
          byte_val b8, byte_val b9)
  | _ => Raise StructError
  end.

(** From the length check to the extraction of the pixel data: the
    arguments [add_packet] is called with, or [None] where the loop
    goes on to the next datagram ([continue]). *)
Definition parse_video_packet (data : bytes) : result (option call) :=
  if negb (Z.of_nat (length data) =? VIDEO_PACKET_SIZE) then Ok None
  else
    try hdr <- unpack_HHHHBB (py_slice data 0 10);
    let '(seq_num, frame_num, line_num, pixels_per_line,
          lines_per_packet, bits_per_pixel) := hdr in
    let is_last := negb (Z.land line_num 0x8000 =? 0) in
    let line_num := Z.land line_num 0x7FFF in
    if negb (pixels_per_line =? PIXELS_PER_LINE)
       || negb (lines_per_packet =? LINES_PER_PACKET)
       || negb (bits_per_pixel =? 4)
    then Ok None
    else
      let pixel_data := drop (Z.to_nat VIDEO_HEADER_SIZE) data in
      Ok (Some (mkCall frame_num line_num lines_per_packet pixel_data is_last)).

(** What one received datagram led to. *)
Inductive event : Type :=
  | Skipped                                   (* [continue] *)
  | Added (c : call) (shown : option frame).  (* [add_packet] was called *)

(** One iteration of the loop on a received datagram: the assembler the
    loop goes on with, and what happened. *)
Definition main_recv (assembler : C64FrameAssembler) (data : bytes)
    : result (C64FrameAssembler * event) :=
  try parsed <- parse_video_packet data;
  match parsed with
  | None => Ok (assembler, Skipped)
  | Some c =>
      match add_packet assembler (c_frame c) (c_line c) (c_lpp c) (c_data c) (c_last c) with
      | (_, Some e) => Raise e
      | (assembler1, None) =>
          if is_complete assembler1 then
            try shown <- get_frame assembler1;
            Ok (assembler_init, Added c shown)
          else Ok (assembler1, Added c None)
      end
  end.

(** ** [send_ultimate64_stream_command]: the command bytes

    The socket is outside the model: the result is the value of [cmd]
    that is handed to [sock.send], whatever [ultimate_host] is. *)

(** [cmd.append(v)]: a [bytearray] takes integers in [range(256)] only. *)
Definition bytearray_append (cmd : bytes) (v : Z) : result bytes :=
  if v <? 0 then Raise ValueError
  else match Byte.of_N (Z.to_N v) with
       | Some b => Ok (cmd ++ [b])
       | None => Raise ValueError
       end.

(** [s.encode('ascii')] *)
Definition encode_ascii (s : string) : result bytes :=
  let bs := list_byte_of_string s in
  if forallb (fun b => N.ltb (Byte.to_N b) 128) bs then Ok bs
  else Raise UnicodeEncodeError.

(** [str(n)] for an integer. *)
Definition py_str_int (n : Z) : string := NilZero.string_of_int (Z.to_int n).

Definition send_ultimate64_stream_command
    (ultimate_host : string) (stream_id : Z) (enable : bool)
    (local_ip : string) (port : Z) : result bytes :=
  if enable then
    let ip_port_str := (local_ip ++ ":" ++ py_str_int port)%string in
    try ip_port_bytes <- encode_ascii ip_port_str;
    let param_len := 2 + Z.of_nat (length ip_port_bytes) in
    try cmd <- bytearray_append [] (0x20 + stream_id);
    try cmd <- bytearray_append cmd 0xFF;
    try cmd <- bytearray_append cmd (Z.land param_len 0xFF);
    try cmd <- bytearray_append cmd (Z.land (Z.shiftr param_len 8) 0xFF);
    try cmd <- bytearray_append cmd 0x00;
    try cmd <- bytearray_append cmd 0x00;
    Ok (cmd ++ ip_port_bytes)
  else
    try cmd <- bytearray_append [] (0x30 + stream_id);
    try cmd <- bytearray_append cmd 0xFF;
    try cmd <- bytearray_append cmd 0x00;
    bytearray_append cmd 0x00.

(** ** [AudioPlayer._remove_dc_offset]

    The [float32] values of the source are idealised as exact rationals;
    samples are the [int16] values of [audio_array]. *)

Definition alpha : Q := 995 # 1000.

(** [audio_array.reshape(-1, 2)] *)
Fixpoint reshape2 (a : list Z) : result (list (Z * Z)) :=
  match a with
  | [] => Ok []
  | [_] => Raise ValueError
  | l :: r :: rest => try t <- reshape2 rest; Ok ((l, r) :: t)
  end.

(** One channel of one row: [sample - state], plus [alpha] times the
    previous row of [filtered] when [i > 0]. *)
Definition dc_sample (sample : Z) (state : Q) (prev : option Q) : Q :=
  let y := (inject_Z sample - state)%Q in
  match prev with
  | None => y
  | Some p => (y + alpha * p)%Q
  end.

(** The loop over the rows [i]: [prev] is row [i-1] of [filtered] ([None]
    for [i = 0]), [last] is [stereo[-1]], which every iteration stores
    into [dc_filter_state]. Result: the rows of [filtered] and the state. *)
Fixpoint dc_rows (last : Z * Z) (state : Q * Q) (prev : option (Q * Q))
    (rows : list (Z * Z)) : list (Q * Q) * (Q * Q) :=
  match rows with
  | [] => ([], state)
  | (l, r) :: rest =>
      let yl := dc_sample l (fst state) (option_map fst prev) in
      let yr := dc_sample r (snd state) (option_map snd prev) in
      let state' := (inject_Z (fst last), inject_Z (snd last)) in
      let '(out, st) := dc_rows last state' (Some (yl, yr)) rest in
      ((yl, yr) :: out, st)
  end.

(** [np.clip(y, -32768, 32767)] *)
Definition np_clip (y : Q) : Q :=
  if Qle_bool y (-32768 # 1) then (-32768 # 1)%Q
  else if Qle_bool (32767 # 1) y then (32767 # 1)%Q
  else y.

(** [.astype(np.int16)] on a clipped value: the fraction is cut off. *)
Definition astype_int16 (y : Q) : Z := Z.quot (Qnum y) (Zpos (Qden y)).

Definition to_int16_row (y : Q * Q) : Z * Z :=
  (astype_int16 (np_clip (fst y)), astype_int16 (np_clip (snd y))).

(** The filtered rows and the new [dc_filter_state]. *)
Definition _remove_dc_offset (dc_filter_state : Q * Q) (audio_array : list Z)
    : result (list (Z * Z) * (Q * Q)) :=
  try stereo <- reshape2 audio_array;
  let last := List.last stereo (0, 0) in
  let '(filtered, state') := dc_rows last dc_filter_state None stereo in
  Ok (map to_int16_row filtered, state').

(** The state [AudioPlayer.__init__] sets. *)
Definition dc_filter_init : Q * Q := (0 # 1, 0 # 1)%Q.

(** *** The recurrence the source states for the filter

    [y[n] = x[n] - x[n-1] + alpha * y[n-1]] per channel, with the previous
    input and the previous output carried from sample to sample. *)

Record dc_channel : Type := mkChannel { last_input : Q; last_output : Q }.

Definition dc_channel_init : dc_channel := mkChannel (0 # 1) (0 # 1).

Definition recurrence_step (st : dc_channel) (x : Z) : dc_channel :=
  let y := (inject_Z x - last_input st + alpha * last_output st)%Q in
  mkChannel (inject_Z x) y.

(** Round to the nearest integer, a tie to the even one. *)
Definition round_half_even (y : Q) : Z :=
  let f := Qfloor y in
  let d := (y - inject_Z f)%Q in
  match Qcompare d (1 # 2) with
  | Lt => f
  | Gt => f + 1
  | Eq => if Z.even f then f else f + 1
  end.

Definition emit (y : Q) : Z := Z.max (-32768) (Z.min 32767 (round_half_even y)).

(** ** Notions the properties are stated with *)

(** Completion looks at the packets and the expected count only. *)
Definition same_assembly (s t : C64FrameAssembler) : Prop :=
  current_frame_num s = current_frame_num t
  /\ packets s = packets t
  /\ expected_packets s = expected_packets t.

(** The assembler of [__init__] but for the height. *)
Definition emptied (s : C64FrameAssembler) : C64FrameAssembler :=
  {| current_frame_num := None; packets := []; expected_packets := 0;
     height := height s |}.

(** The height and the expected count are set together: while the
    expected count is not zero, the height is the one the latest
    last-flagged packet of the tracked frame gave. *)
Definition height_from_last (cs : list call) (s : C64FrameAssembler) : Prop :=
  exists (pre : list call) (c : call) (post : list call),
    cs = pre ++ c :: post
    /\ c_last c = true
    /\ c_lpp c <> 0
    /\ current_frame_num s = Some (c_frame c)
    /\ Forall (fun c' => c_frame c' = c_frame c) post
    /\ height s = c_line c + c_lpp c.

(** The bytes and 16-bit fields of a datagram by offset. *)
Definition byte_at (data : bytes) (i : nat) : Z := byte_val (nth i data x00).

Definition field_u16 (data : bytes) (i : nat) : Z :=
  byte_at data i + 256 * byte_at data (S i).

(** A datagram the loop does not hand to the assembler. *)
Definition malformed (data : bytes) : Prop :=
  length data <> 780%nat
  \/ field_u16 data 6 <> 384
  \/ byte_at data 8 <> 4
  \/ byte_at data 9 <> 4.

(** A well-formed datagram: frame 7, line 4 flagged last, 384 pixels per
    line, 4 lines per packet, 4 bits per pixel, every payload byte 0x1A. *)
Definition sample_datagram : bytes :=
  [x00; x00; x07; x00; x04; x80; x80; x01; x04; x04; x00; x00] ++ repeat x1a 768.

(** One audio packet of 192 stereo pairs: silence in the first pair, the
    level 1000 on both channels in the 191 pairs after it. *)
Definition step_packet : list Z := [0; 0] ++ concat (repeat [1000; 1000] 191).

(** ** The contents of a frame buffer *)

(** The pixel at row [r], column [x], if the buffer has it. *)
Definition pixel (f : frame) (r x : nat) : option color :=
  match f !! r with
  | Some row => row !! x
  | None => None
  end.

(** A buffer of [h] rows of [PIXELS_PER_LINE] pixels. *)
Definition shape (h : nat) (f : frame) : Prop :=
  length f = h /\ Forall (fun row => length row = Z.to_nat PIXELS_PER_LINE) f.

(** The palette entries of the low and of the high nibble of a byte. *)
Definition low_color (b : byte) : color :=
  nth (Z.to_nat (fst (nibbles (byte_val b)))) VIC_COLORS_BGR zero_color.

Definition high_color (b : byte) : color :=
  nth (Z.to_nat (snd (nibbles (byte_val b)))) VIC_COLORS_BGR zero_color.

(** The colour the bytes of a line give column [x], the first of them
    being the byte of index [i]: byte [j] gives the columns [2 j] (low
    nibble) and [2 j + 1] (high nibble) that are below [PIXELS_PER_LINE]. *)
Definition line_pixel (line_data : bytes) (i x : nat) : option color :=
  if (x <? Z.to_nat PIXELS_PER_LINE)%nat && (2 * i <=? x)%nat then
    match line_data !! (x / 2 - i)%nat with
    | Some b => Some (if Nat.even x then low_color b else high_color b)
    | None => None
    end
  else None.

(** The colour a stored packet gives the pixel at row [r], column [x]:
    its sub-line [r - line_num], where that is one of its
    [LINES_PER_PACKET] sub-lines and [r] is below [height]. *)
Definition packet_pixel (height line_num : Z) (pixel_data : bytes) (r x : nat)
    : option color :=
  let off := Z.of_nat r - line_num in
  if (0 <=? off) && (off <? LINES_PER_PACKET) && (Z.of_nat r <? height) then
    line_pixel
      (py_slice pixel_data (off * BYTES_PER_LINE) (off * BYTES_PER_LINE + BYTES_PER_LINE))
      0 x
  else None.

(** The pixel after the stored packets were decoded in dictionary order
    over [base]: the last packet that gives the pixel a colour wins. *)
Fixpoint painted (height : Z) (items : list (Z * (Z * bytes))) (r x : nat)
    (base : option color) : option color :=
  match items with
  | [] => base
  | (_, (line_num, pixel_data)) :: rest =>
      painted height rest r x
        (match packet_pixel height line_num pixel_data r x with
         | Some c => Some c
         | None => base
         end)
  end.

(** ** Frames as a sender of aligned lines produces them *)

(** A call as the loop of [main] makes it for a packet whose line number
    is a multiple of the four lines of a packet. *)
Definition aligned_call (c : call) : Prop :=
  c_lpp c = LINES_PER_PACKET
  /\ 0 <= c_line c
  /\ c_line c mod LINES_PER_PACKET = 0.

(** Stored packets with distinct indices, each starting at the line
    [LINES_PER_PACKET * packet_index]. *)
Definition aligned_items (items : list (Z * (Z * bytes))) : Prop :=
  NoDup (map fst items)
  /\ Forall (fun item => 0 <= fst item
                         /\ fst (snd item) = LINES_PER_PACKET * fst item) items.

(** The sub-line of a packet at line offset [off]. *)
Definition sub_line (pixel_data : bytes) (off : Z) : bytes :=
  py_slice pixel_data (off * BYTES_PER_LINE) (off * BYTES_PER_LINE + BYTES_PER_LINE).

(** Every sub-line of the packet that is below [height] is in the buffer,
    two pixels per byte: byte [j] at the columns [2 j] and [2 j + 1]. *)
Definition packet_decoded (f : frame) (height line_num : Z) (pixel_data : bytes) : Prop :=
  forall (off : Z) (j : nat) (b : byte),
    0 <= off < LINES_PER_PACKET ->
    line_num + off < height ->
    sub_line pixel_data off !! j = Some b ->
    pixel f (Z.to_nat (line_num + off)) (2 * j) = Some (low_color b)
    /\ pixel f (Z.to_nat (line_num + off)) (2 * j + 1) = Some (high_color b).

(** The lines of every packet index that has no stored packet are zero. *)
Definition missing_zero (f : frame) (height : Z) (items : list (Z * (Z * bytes))) : Prop :=
  forall (k : Z) (r x : nat),
    0 <= k ->
    dict_get k items = None ->
    LINES_PER_PACKET * k <= Z.of_nat r < LINES_PER_PACKET * k + LINES_PER_PACKET ->
    Z.of_nat r < height ->
    (x < Z.to_nat PIXELS_PER_LINE)%nat ->
    pixel f r x = Some zero_color.

(** A buffer of [height] rows that holds every stored packet decoded and
    zero in the lines of the packets that are missing. *)
Definition frame_decoded (s : C64FrameAssembler) (f : frame) : Prop :=
  shape (Z.to_nat (height s)) f
  /\ (forall idx line_num pixel_data,
        In (idx, (line_num, pixel_data)) (packets s) ->
        packet_decoded f (height s) line_num pixel_data)
  /\ missing_zero f (height s) (packets s).

(** What the invariant of aligned calls keeps of an assembler. *)
Definition aligned_state (s : C64FrameAssembler) : Prop :=
  aligned_items (packets s)
  /\ (expected_packets s <> 0 -> 0 <= height s).

(** Two datagrams of frame 7 whose lines overlap: line 3 (packet index 0,
    every payload byte 0x11) and line 4 flagged last (packet index 1,
    every payload byte 0x00). *)
Definition overlap_datagram_1 : bytes :=
  [x00; x00; x07; x00; x03; x00; x80; x01; x04; x04; x00; x00] ++ repeat x11 768.

Definition overlap_datagram_2 : bytes :=
  [x01; x00; x07; x00; x04; x80; x80; x01; x04; x04; x00; x00] ++ repeat x00 768.

Definition overlap_call_1 : call := mkCall 7 3 4 (repeat x11 768) false.
Definition overlap_call_2 : call := mkCall 7 4 4 (repeat x00 768) true.

(** The two packets of an aligned frame of eight lines. *)
Definition aligned_calls : list call :=
  [mkCall 7 0 4 (repeat x1a 768) false; mkCall 7 4 4 (repeat x1a 768) true].

(** ** [is_complete] of c64_stream_viewer_av.py

    The audio/video viewer has its own copy of the assembler; its
    [is_complete] is [expected_packets > 0 and len(packets) >= expected_packets]. *)
Definition is_complete_av (self : C64FrameAssembler) : bool :=
  (0 <? expected_packets self)
  && Z.geb (Z.of_nat (length (packets self))) (expected_packets self).

(** ** The loop of [main] over the datagrams received

    An exception other than the socket's leaves the loop and ends [main]. *)
Fixpoint main_loop (assembler : C64FrameAssembler) (datagrams : list bytes)
    : result (C64FrameAssembler * list event) :=
  match datagrams with
  | [] => Ok (assembler, [])
  | data :: rest =>
      try step <- main_recv assembler data;
      try tail <- main_loop (fst step) rest;
      Ok (fst tail, snd step :: snd tail)
  end.

(** A call as the loop makes it from a datagram. *)
Definition wire_call (c : call) : Prop :=
  0 <= c_frame c < 65536
  /\ 0 <= c_line c < 32768
  /\ c_lpp c = LINES_PER_PACKET
  /\ length (c_data c) = 768%nat.

(** What the loop keeps of its assembler. *)
Definition wire_state (s : C64FrameAssembler) : Prop :=
  Forall (fun item => 0 <= fst (snd item)) (packets s)
  /\ (expected_packets s <> 0 -> 4 <= height s <= 32771).

(** What the loop reports for a datagram: a call made from the wire, and
    where a frame was assembled, a buffer of 4 to 32771 rows. *)
Definition event_ok (ev : event) : Prop :=
  match ev with
  | Skipped => True
  | Added c None => wire_call c
  | Added c (Some f) =>
      wire_call c /\ exists h : Z, 4 <= h <= 32771 /\ shape (Z.to_nat h) f
  end.

(** ** The palette of c64_stream_viewer_av.py and c64_stream_viewer_wayland.py

    The body of their conversion loop: one BGRA word to an (r, g, b) tuple. *)
Definition bgra_to_rgb (bgra : Z) : color :=
  let r := Z.land bgra 0xFF in
  let g := Z.land (Z.shiftr bgra 8) 0xFF in
  let b := Z.land (Z.shiftr bgra 16) 0xFF in
  (r, g, b).

Definition VIC_COLORS_RGB : list color := map bgra_to_rgb VIC_COLORS_BGRA.

(** ** The audio path of c64_stream_viewer_av.py *)

Definition AUDIO_PACKET_SIZE : Z := 770.
Definition AUDIO_HEADER_SIZE : Z := 2.

(** The receive loop of [main] on an audio datagram: the bytes handed to
    [add_audio_packet], or [None] where the datagram is left out. *)
Definition audio_payload (data : bytes) : option bytes :=
  if Z.of_nat (length data) =? AUDIO_PACKET_SIZE then
    Some (py_slice data AUDIO_HEADER_SIZE (AUDIO_HEADER_SIZE + 768))
  else None.

(** A little-endian signed 16-bit sample. *)
Definition int16le (lo hi : byte) : Z :=
  let u := u16le lo hi in
  if u <? 32768 then u else u - 65536.

(** [np.frombuffer(audio_data, dtype=np.int16)] on a little-endian machine. *)
Fixpoint np_frombuffer_int16 (b : bytes) : result (list Z) :=
  match b with
  | [] => Ok []
  | [_] => Raise ValueError
  | lo :: hi :: rest => try t <- np_frombuffer_int16 rest; Ok (int16le lo hi :: t)
  end.

(** [_play_audio] on one packet taken from the queue, up to the filtered
    array that is made a sound. *)
Definition play_audio_filter (dc_filter_state : Q * Q) (audio_data : bytes)
    : result (list (Z * Z) * (Q * Q)) :=
  try audio_array <- np_frombuffer_int16 audio_data;
  _remove_dc_offset dc_filter_state audio_array.

(** [AudioPlayer.add_audio_packet] on [queue.Queue(maxsize=20)]:
    [put_nowait] raises [queue.Full] at 20 entries and the packet is
    dropped. *)
Definition add_audio_packet (audio_queue : list bytes) (audio_data : bytes)
    : list bytes :=
  if (length audio_queue <? 20)%nat then audio_queue ++ [audio_data]
  else audio_queue.

(** The queue between the receive loop and the playback thread, whose
    operations are atomic: a packet received, or one turn of the loop of
    [_play_audio], which takes the oldest packet or, on [queue.Empty],
    goes round again. *)
Inductive audio_event : Type :=
  | Received (audio_data : bytes)
  | PlayTurn.

Record audio_state : Type := mkAudio {
  audio_queue : list bytes;
  played : list bytes
}.

Definition audio_step (st : audio_state) (ev : audio_event) : audio_state :=
  match ev with
  | Received d => mkAudio (add_audio_packet (audio_queue st) d) (played st)
  | PlayTurn =>
      match audio_queue st with
      | [] => st
      | d :: q => mkAudio q (played st ++ [d])
      end
  end.

Definition audio_run (evs : list audio_event) : audio_state :=
  fold_left audio_step evs (mkAudio [] []).

(** The packets received, in order. *)
Fixpoint received (evs : list audio_event) : list bytes :=
  match evs with
  | [] => []
  | Received d :: rest => d :: received rest
  | PlayTurn :: rest => received rest
  end.

(** A sample of the [int16] range. *)
Definition int16_range (v : Z) : Prop := -32768 <= v <= 32767.

(** An audio packet that holds the pair [(l, r)] [n] times. *)
Definition steady_packet (l r : Z) (n : nat) : list Z := concat (repeat [l; r] n).

(** * Properties *)

(** ** The insertion-ordered dictionary *)

Lemma dict_set_twice {V : Type} (k : Z) (v : V) (d : list (Z * V)) :
  dict_set k v (dict_set k v d) = dict_set k v d.
Proof.
  induction d as [|[k' v'] d IH]; simpl.
  - rewrite Z.eqb_refl. reflexivity.
  - destruct (Z.eqb k' k) eqn:E; simpl.
    + rewrite Z.eqb_refl. reflexivity.
    + rewrite E, IH. reflexivity.
Qed.

Lemma frame_differs_false (cur : option Z) (f : Z) :
  frame_differs cur f = false <-> cur = Some f.
Proof.
  destruct cur as [g|]; simpl.
  - rewrite negb_false_iff, Z.eqb_eq. split; congruence.
  - split; discriminate.
Qed.

Lemma frame_differs_true (cur : option Z) (f : Z) :
  frame_differs cur f = true <-> cur <> Some f.
Proof.
  rewrite <- frame_differs_false. destruct (frame_differs cur f); split; congruence.
Qed.

(** ** The frame assembler as a state machine *)

Lemma start_frame_current (s : C64FrameAssembler) (f : Z) :
  current_frame_num (start_frame s f) = Some f.
Proof.
  unfold start_frame. destruct (frame_differs _ f) eqn:E; [reflexivity|].
  now apply frame_differs_false.
Qed.

Lemma start_frame_again (s : C64FrameAssembler) (f : Z) :
  current_frame_num s = Some f -> start_frame s f = s.
Proof.
  intros H. unfold start_frame.
  apply frame_differs_false in H. now rewrite H.
Qed.

Lemma start_frame_height (s : C64FrameAssembler) (f : Z) :
  height (start_frame s f) = height s.
Proof. unfold start_frame. now destruct (frame_differs _ f). Qed.

Lemma add_call_current (s : C64FrameAssembler) (c : call) :
  current_frame_num (add_call s c) = Some (c_frame c).
Proof.
  unfold add_call, add_packet.
  destruct (Z.eqb (c_lpp c) 0), (c_last c); simpl; apply start_frame_current.
Qed.

Lemma run_snoc (s : C64FrameAssembler) (cs : list call) (c : call) :
  run s (cs ++ [c]) = add_call (run s cs) c.
Proof. unfold run. now rewrite fold_left_app. Qed.

Lemma same_assembly_complete (s t : C64FrameAssembler) :
  same_assembly s t -> is_complete s = is_complete t.
Proof. intros (_ & Hp & He). unfold is_complete. now rewrite Hp, He. Qed.

Lemma same_assembly_add (s t : C64FrameAssembler) (c : call) :
  same_assembly s t -> same_assembly (add_call s c) (add_call t c).
Proof.
  intros (Hc & Hp & He). unfold same_assembly, add_call, add_packet, start_frame.
  rewrite Hc.
  destruct (frame_differs _ _), (Z.eqb (c_lpp c) 0), (c_last c);
    simpl; rewrite ?Hc, ?Hp, ?He; repeat split; reflexivity.
Qed.

Lemma same_assembly_run (cs : list call) (s t : C64FrameAssembler) :
  same_assembly s t -> same_assembly (run s cs) (run t cs).
Proof.
  revert s t. induction cs as [|c cs IH]; intros s t H; simpl; [exact H|].
  apply IH, same_assembly_add, H.
Qed.

(** A frame number no call carries is not the tracked one afterwards. *)
Lemma run_current_other (f : Z) (cs : list call) (s : C64FrameAssembler) :
  current_frame_num s <> Some f ->
  Forall (fun c => c_frame c <> f) cs ->
  current_frame_num (run s cs) <> Some f.
Proof.
  revert s. induction cs as [|c cs IH]; intros s Hs Hall; simpl; [exact Hs|].
  inversion Hall as [|? ? Hc Hcs]; subst.
  apply IH; [|exact Hcs].
  rewrite add_call_current. congruence.
Qed.

(** ** Properties of [add_packet] and [is_complete] *)

(** C4. From a fresh assembler, the packets of lines 0 and 4 of one frame
    (four lines per packet, the one of line 4 flagged last) give
    [expected_packets = 2] and [height = 8] in either order of arrival;
    [is_complete] is false after either packet alone and true after both. *)
Theorem C4_two_packet_frame (f : Z) (d0 d4 : bytes) :
  exists a0 a4 a04 a40 : C64FrameAssembler,
    add_packet assembler_init f 0 4 d0 false = (a0, None)
    /\ add_packet assembler_init f 4 4 d4 true = (a4, None)
    /\ add_packet a0 f 4 4 d4 true = (a04, None)
    /\ add_packet a4 f 0 4 d0 false = (a40, None)
    /\ is_complete assembler_init = false
    /\ is_complete a0 = false
    /\ is_complete a4 = false
    /\ (expected_packets a4 = 2 /\ height a4 = 8)
    /\ (expected_packets a04 = 2 /\ height a04 = 8 /\ is_complete a04 = true)
    /\ (expected_packets a40 = 2 /\ height a40 = 8 /\ is_complete a40 = true).
Proof.
  do 4 eexists.
  split; [reflexivity|]. split; [reflexivity|].
  split.
  { unfold add_packet, start_frame; simpl. rewrite Z.eqb_refl. simpl. reflexivity. }
  split.
  { unfold add_packet, start_frame; simpl. rewrite Z.eqb_refl. simpl. reflexivity. }
  repeat split; reflexivity.
Qed.

(** C9. Calling [add_packet] a second time with the same arguments leaves
    the assembler as the first call left it, with the same outcome, and so
    with the same answer of [is_complete]. *)
Theorem C9_add_packet_idempotent (s : C64FrameAssembler)
    (frame_num line_num lines_per_packet : Z) (pixel_data : bytes) (is_last : bool) :
  let once := add_packet s frame_num line_num lines_per_packet pixel_data is_last in
  let twice := add_packet (fst once) frame_num line_num lines_per_packet pixel_data is_last in
  twice = once /\ is_complete (fst twice) = is_complete (fst once).
Proof.
  cbv zeta.
  assert (H : add_packet
                (fst (add_packet s frame_num line_num lines_per_packet pixel_data is_last))
                frame_num line_num lines_per_packet pixel_data is_last
              = add_packet s frame_num line_num lines_per_packet pixel_data is_last).
  { unfold add_packet.
    destruct (Z.eqb lines_per_packet 0) eqn:E0.
    - cbn [fst]. rewrite start_frame_again by apply start_frame_current. reflexivity.
    - destruct is_last; cbn [fst]; rewrite start_frame_again;
        cbn [current_frame_num packets expected_packets height];
        rewrite ?dict_set_twice, ?start_frame_height;
        try reflexivity; apply start_frame_current. }
  rewrite H. split; reflexivity.
Qed.

Lemma add_call_switch (s : C64FrameAssembler) (c : call) :
  current_frame_num s <> Some (c_frame c) ->
  add_call s c = add_call (emptied s) c.
Proof.
  intros H. apply frame_differs_true in H.
  unfold add_call, add_packet, start_frame. rewrite H. reflexivity.
Qed.

(** C2. A call of [add_packet] with a frame number other than the tracked
    one drops the stored packets and the expected count before it stores
    its packet: the call does what it does on an emptied assembler, and
    where it returns the packet stored is the only one. From then on
    [is_complete] answers as for a fresh assembler given this call and
    the later ones, and while no later call carries the former frame
    number again, that number is not the tracked one, so nothing is
    reported complete for it. *)
Theorem C2_frame_switch_discards (s : C64FrameAssembler) (c : call) (later : list call) :
  current_frame_num s <> Some (c_frame c) ->
  add_packet s (c_frame c) (c_line c) (c_lpp c) (c_data c) (c_last c)
    = add_packet (emptied s) (c_frame c) (c_line c) (c_lpp c) (c_data c) (c_last c)
  /\ (c_lpp c <> 0 ->
      packets (add_call s c) = [(c_line c / c_lpp c, (c_line c, c_data c))]
      /\ expected_packets (add_call s c)
         = if c_last c then c_line c / c_lpp c + 1 else 0)
  /\ is_complete (run s (c :: later)) = is_complete (run assembler_init (c :: later))
  /\ current_frame_num (run s (c :: later))
     = current_frame_num (run assembler_init (c :: later))
  /\ (forall f, current_frame_num s = Some f ->
      Forall (fun c' => c_frame c' <> f) later ->
      current_frame_num (run s (c :: later)) <> Some f).
Proof.
  intros Hne.
  assert (Hsw : frame_differs (current_frame_num s) (c_frame c) = true)
    by now apply frame_differs_true.
  split; [|split; [|split; [|split]]].
  - unfold add_packet, start_frame. rewrite Hsw. reflexivity.
  - intros Hlpp. apply Z.eqb_neq in Hlpp.
    unfold add_call, add_packet, start_frame. rewrite Hsw, Hlpp.
    destruct (c_last c); split; reflexivity.
  - apply same_assembly_complete. simpl. apply same_assembly_run.
    rewrite add_call_switch by exact Hne.
    apply same_assembly_add. repeat split.
  - simpl. apply same_assembly_run.
    rewrite add_call_switch by exact Hne.
    apply same_assembly_add. repeat split.
  - intros f Hf Hall. simpl. apply run_current_other; [|exact Hall].
    rewrite add_call_current. congruence.
Qed.

Lemma C2_frame_switch_discards_witness :
  let s := run assembler_init [mkCall 7 0 4 [] false] in
  let c := mkCall 8 4 4 [] true in
  current_frame_num s <> Some (c_frame c)
  /\ is_complete (run s [c; mkCall 8 0 4 [] false])
     = is_complete (run assembler_init [c; mkCall 8 0 4 [] false]).
Proof.
  cbv zeta.
  assert (H : current_frame_num (run assembler_init [mkCall 7 0 4 [] false])
              <> Some (c_frame (mkCall 8 4 4 [] true))) by (simpl; discriminate).
  split; [exact H|].
  exact (proj1 (proj2 (proj2
    (C2_frame_switch_discards _ _ [mkCall 8 0 4 [] false] H)))).
Defined.

Lemma expected_gives_height (cs : list call) :
  expected_packets (run assembler_init cs) <> 0 ->
  height_from_last cs (run assembler_init cs).
Proof.
  induction cs as [|c cs IH] using rev_ind.
  - simpl. intros H. now contradiction H.
  - rewrite run_snoc. set (s := run assembler_init cs) in *.
    unfold add_call, add_packet.
    destruct (Z.eqb (c_lpp c) 0) eqn:E0; [|destruct (c_last c) eqn:EL]; cbn [fst].
    + (* the call raises: at most the frame was switched *)
      unfold start_frame.
      destruct (frame_differs (current_frame_num s) (c_frame c)) eqn:ED.
      * simpl. intros H. now contradiction H.
      * intros H. destruct (IH H) as (pre & c0 & post & -> & HL & Hlpp & Hcur & Hpost & Hh).
        exists pre, c0, (post ++ [c]). rewrite <- app_assoc. simpl.
        repeat split; try assumption.
        apply Forall_app. split; [exact Hpost|]. constructor; [|constructor].
        apply frame_differs_false in ED. congruence.
    + (* a last-flagged packet sets both fields *)
      intros _. exists cs, c, []. simpl.
      repeat split; try assumption.
      * now apply Z.eqb_neq.
      * apply start_frame_current.
      * constructor.
    + (* any other packet leaves both fields as the frame start left them *)
      cbn [expected_packets height current_frame_num]. unfold start_frame.
      destruct (frame_differs (current_frame_num s) (c_frame c)) eqn:ED.
      * simpl. intros H. now contradiction H.
      * intros H. destruct (IH H) as (pre & c0 & post & -> & HL & Hlpp & Hcur & Hpost & Hh).
        exists pre, c0, (post ++ [c]). rewrite <- app_assoc. simpl.
        repeat split; try assumption.
        apply Forall_app. split; [exact Hpost|]. constructor; [|constructor].
        apply frame_differs_false in ED. congruence.
Qed.

(** C10. The height is 272 at first and a change of frame number does not
    clear it: starting a frame leaves it as it was, and so does every call
    that is not flagged last, so that a new frame begins with the height
    the last-flagged packet of an earlier frame gave. Still, whenever
    [is_complete] holds after a sequence of calls from a fresh assembler,
    the height is [line_num + lines_per_packet] of a last-flagged packet
    added for the tracked frame number, with calls for that frame number
    only after it: starting a frame sets the expected count to zero, and
    only a last-flagged packet sets it again, together with the height. *)
Theorem C10_height_of_complete_frame :
  height assembler_init = 272
  /\ (forall (s : C64FrameAssembler) (f : Z),
        height (start_frame s f) = height s)
  /\ (forall (s : C64FrameAssembler) (c : call),
        c_last c = false -> height (add_call s c) = height s)
  /\ height (run assembler_init [mkCall 1 0 4 [] true; mkCall 2 8 4 [] false]) = 4
  /\ (forall (s : C64FrameAssembler) (c : call),
        current_frame_num s <> Some (c_frame c) ->
        expected_packets (start_frame s (c_frame c)) = 0)
  /\ (forall cs : list call,
        is_complete (run assembler_init cs) = true ->
        height_from_last cs (run assembler_init cs)).
Proof.
  split; [reflexivity|]. split; [exact start_frame_height|].
  split; [|split; [reflexivity|split]].
  - intros s c HL. unfold add_call, add_packet. rewrite HL.
    destruct (Z.eqb (c_lpp c) 0); cbn [fst height]; apply start_frame_height.
  - intros s c H. apply frame_differs_true in H.
    unfold start_frame. rewrite H. reflexivity.
  - intros cs H. apply expected_gives_height.
    unfold is_complete in H.
    destruct (Z.eqb (expected_packets (run assembler_init cs)) 0) eqn:E;
      [discriminate|]. now apply Z.eqb_neq.
Qed.

Lemma C10_height_of_complete_frame_witness :
  let cs := [mkCall 1 0 4 [] true; mkCall 2 0 4 [] false; mkCall 2 4 4 [] true] in
  is_complete (run assembler_init cs) = true
  /\ height_from_last cs (run assembler_init cs).
Proof.
  cbv zeta. split; [reflexivity|].
  apply (proj2 (proj2 (proj2 (proj2 (proj2 C10_height_of_complete_frame))))).
  reflexivity.
Defined.

(** ** Decoding the video header *)

Lemma byte_val_range (b : byte) : 0 <= byte_val b < 256.
Proof.
  unfold byte_val. pose proof (Byte.to_N_bounded b) as H.
  lia.
Qed.

Lemma land_bit15 (x : Z) :
  Z.land x 0x8000 = if Z.testbit x 15 then 0x8000 else 0.
Proof.
  apply Z.bits_inj'. intros n Hn.
  rewrite Z.land_spec. change 0x8000 with (2 ^ 15).
  rewrite Z.pow2_bits_eqb by lia.
  destruct (Z.eqb_spec 15 n) as [<-|Hne].
  - rewrite andb_true_r. destruct (Z.testbit x 15) eqn:E.
    + now rewrite Z.pow2_bits_eqb, Z.eqb_refl by lia.
    + now rewrite Z.bits_0.
  - rewrite andb_false_r. destruct (Z.testbit x 15).
    + rewrite Z.pow2_bits_eqb by lia. symmetry. now apply Z.eqb_neq.
    + now rewrite Z.bits_0.
Qed.

(** The header fields the loop reads, by their offsets in the datagram. *)
Lemma parse_video_packet_780 (data : bytes) :
  length data = 780%nat ->
  parse_video_packet data =
    if negb (field_u16 data 6 =? PIXELS_PER_LINE)
       || negb (byte_at data 8 =? LINES_PER_PACKET)
       || negb (byte_at data 9 =? 4)
    then Ok None
    else Ok (Some (mkCall (field_u16 data 2)
                          (Z.land (field_u16 data 4) 0x7FFF)
                          (byte_at data 8)
                          (drop 12 data)
                          (negb (Z.land (field_u16 data 4) 0x8000 =? 0)))).
Proof.
  intros Hlen. unfold parse_video_packet. rewrite Hlen.
  do 10 (destruct data as [|? data]; [discriminate Hlen|]).
  reflexivity.
Qed.

Lemma parse_video_packet_short (data : bytes) :
  length data <> 780%nat -> parse_video_packet data = Ok None.
Proof.
  intros Hlen. unfold parse_video_packet.
  destruct (Z.eqb_spec (Z.of_nat (length data)) VIDEO_PACKET_SIZE) as [E|E].
  - unfold VIDEO_PACKET_SIZE in E. lia.
  - reflexivity.
Qed.

Lemma field_u16_range (data : bytes) (i : nat) : 0 <= field_u16 data i < 65536.
Proof.
  unfold field_u16, byte_at.
  pose proof (byte_val_range (nth i data x00)).
  pose proof (byte_val_range (nth (S i) data x00)). lia.
Qed.

(** C5. For a datagram that passes the checks of the loop, the header
    is decoded with [is_last] equal to bit 15 of the raw 16-bit line
    field and [line_num] equal to its low 15 bits. *)
Theorem C5_last_flag_and_line (data : bytes) :
  length data = 780%nat ->
  field_u16 data 6 = 384 -> byte_at data 8 = 4 -> byte_at data 9 = 4 ->
  exists c : call,
    parse_video_packet data = Ok (Some c)
    /\ c_last c = Z.testbit (field_u16 data 4) 15
    /\ c_line c = field_u16 data 4 mod 2 ^ 15
    /\ 0 <= c_line c < 2 ^ 15
    /\ field_u16 data 4 = c_line c + (if c_last c then 2 ^ 15 else 0).
Proof.
  intros Hlen Hppl Hlpp Hbpp.
  rewrite (parse_video_packet_780 data Hlen), Hppl, Hlpp, Hbpp.
  cbn [negb orb Z.eqb PIXELS_PER_LINE LINES_PER_PACKET Pos.eqb].
  eexists. split; [reflexivity|]. cbn [c_last c_line].
  set (raw := field_u16 data 4).
  pose proof (field_u16_range data 4) as Hraw. fold raw in Hraw.
  assert (Hlow : Z.land raw 0x7FFF = raw mod 2 ^ 15).
  { change 0x7FFF with (Z.ones 15). apply Z.land_ones. lia. }
  assert (Hbit : negb (Z.land raw 0x8000 =? 0) = Z.testbit raw 15).
  { rewrite land_bit15. now destruct (Z.testbit raw 15). }
  rewrite Hlow, Hbit.
  split; [reflexivity|]. split; [reflexivity|].
  split; [apply Z.mod_pos_bound; lia|].
  destruct (Z.testbit raw 15) eqn:E.
  - apply Z.testbit_true in E; [|lia].
    pose proof (Z.div_mod raw (2 ^ 15)) as Hdm.
    assert (0 <= raw / 2 ^ 15 < 2)
      by (split; [apply Z.div_pos|apply Z.div_lt_upper_bound]; lia).
    assert (raw / 2 ^ 15 = 1).
    { destruct (Z.eq_dec (raw / 2 ^ 15) 0) as [E0|E0];
        [rewrite E0 in E; discriminate E|lia]. }
    lia.
  - apply Z.testbit_false in E; [|lia].
    pose proof (Z.div_mod raw (2 ^ 15)) as Hdm.
    assert (0 <= raw / 2 ^ 15 < 2)
      by (split; [apply Z.div_pos|apply Z.div_lt_upper_bound]; lia).
    assert (raw / 2 ^ 15 = 0).
    { destruct (Z.eq_dec (raw / 2 ^ 15) 1) as [E1|E1];
        [rewrite E1 in E; discriminate E|lia]. }
    lia.
Qed.

Lemma parse_video_packet_cases (data : bytes) :
  (malformed data /\ parse_video_packet data = Ok None)
  \/ (~ malformed data
      /\ exists c : call,
           parse_video_packet data = Ok (Some c)
           /\ c_frame c = field_u16 data 2
           /\ c_lpp c = 4
           /\ c_data c = drop 12 data
           /\ length (c_data c) = 768%nat).
Proof.
  unfold malformed.
  destruct (Nat.eq_dec (length data) 780%nat) as [Hlen|Hlen].
  2:{ left. split; [now left|now apply parse_video_packet_short]. }
  rewrite (parse_video_packet_780 data Hlen).
  unfold PIXELS_PER_LINE, LINES_PER_PACKET.
  destruct (Z.eqb_spec (field_u16 data 6) 384) as [E1|E1];
    [|left; split; [tauto|reflexivity]].
  destruct (Z.eqb_spec (byte_at data 8) 4) as [E2|E2];
    [|left; split; [tauto|reflexivity]].
  destruct (Z.eqb_spec (byte_at data 9) 4) as [E3|E3];
    [|left; split; [tauto|reflexivity]].
  right. split; [tauto|]. cbn [negb orb].
  eexists. split; [reflexivity|]. cbn [c_frame c_lpp c_data].
  repeat split; try assumption.
  rewrite length_drop, Hlen. reflexivity.
Qed.

(** C6. The loop leaves a datagram out, with the assembler as it was and
    no exception, exactly when its length is not 780 or its
    pixels-per-line, lines-per-packet or bits-per-pixel field is not 384,
    4 and 4; any other datagram goes to [add_packet] with the 768 bytes
    from offset 12 on as its pixel data. *)
Theorem C6_discard_iff_malformed (assembler : C64FrameAssembler) (data : bytes) :
  (main_recv assembler data = Ok (assembler, Skipped) <-> malformed data)
  /\ (~ malformed data ->
      exists c : call,
        parse_video_packet data = Ok (Some c)
        /\ c_frame c = field_u16 data 2
        /\ c_lpp c = 4
        /\ c_data c = drop 12 data
        /\ length (c_data c) = 768%nat
        /\ add_packet assembler (c_frame c) (c_line c) (c_lpp c) (c_data c) (c_last c)
           = (add_call assembler c, None)
        /\ main_recv assembler data =
             if is_complete (add_call assembler c) then
               try shown <- get_frame (add_call assembler c);
               Ok (assembler_init, Added c shown)
             else Ok (add_call assembler c, Added c None)).
Proof.
  assert (Hgood : ~ malformed data ->
      exists c : call,
        parse_video_packet data = Ok (Some c)
        /\ c_frame c = field_u16 data 2
        /\ c_lpp c = 4
        /\ c_data c = drop 12 data
        /\ length (c_data c) = 768%nat
        /\ add_packet assembler (c_frame c) (c_line c) (c_lpp c) (c_data c) (c_last c)
           = (add_call assembler c, None)
        /\ main_recv assembler data =
             if is_complete (add_call assembler c) then
               try shown <- get_frame (add_call assembler c);
               Ok (assembler_init, Added c shown)
             else Ok (add_call assembler c, Added c None)).
  { intros Hok.
    destruct (parse_video_packet_cases data) as [[Hbad _]|[_ (c & Hp & Hf & Hl & Hd & Hn)]];
      [contradiction|].
    exists c. repeat (split; [assumption|]).
    assert (Hadd : add_packet assembler (c_frame c) (c_line c) (c_lpp c) (c_data c) (c_last c)
                   = (add_call assembler c, None)).
    { unfold add_call, add_packet. rewrite Hl. cbn [Z.eqb].
      now destruct (c_last c). }
    split; [exact Hadd|].
    unfold main_recv. rewrite Hp. cbn [rbind]. rewrite Hadd. reflexivity. }
  split; [|exact Hgood].
  split.
  - intros Hskip.
    destruct (parse_video_packet_cases data) as [[Hbad _]|[Hok _]]; [exact Hbad|].
    destruct (Hgood Hok) as (c & _ & _ & _ & _ & _ & _ & Hrecv).
    rewrite Hrecv in Hskip.
    destruct (is_complete (add_call assembler c)).
    + destruct (get_frame (add_call assembler c)); discriminate Hskip.
    + discriminate Hskip.
  - intros Hbad.
    destruct (parse_video_packet_cases data) as [[_ Hp]|[Hok _]]; [|contradiction].
    unfold main_recv. rewrite Hp. reflexivity.
Qed.

Lemma C5_last_flag_and_line_witness :
  exists c : call,
    parse_video_packet sample_datagram = Ok (Some c)
    /\ c_last c = true /\ c_line c = 4.
Proof.
  destruct (C5_last_flag_and_line sample_datagram eq_refl eq_refl eq_refl eq_refl)
    as (c & Hp & HL & Hline & _).
  exists c. split; [exact Hp|]. split; [exact HL|exact Hline].
Defined.

Lemma C6_discard_iff_malformed_witness :
  ~ malformed sample_datagram
  /\ exists c : call,
       parse_video_packet sample_datagram = Ok (Some c)
       /\ length (c_data c) = 768%nat
       /\ fst (add_packet assembler_init (c_frame c) (c_line c) (c_lpp c) (c_data c) (c_last c))
          = add_call assembler_init c.
Proof.
  assert (H : ~ malformed sample_datagram).
  { intros [H|[H|[H|H]]]; now apply H. }
  split; [exact H|].
  destruct (proj2 (C6_discard_iff_malformed assembler_init sample_datagram) H)
    as (c & Hp & _ & _ & _ & Hn & Hadd & _).
  exists c. split; [exact Hp|]. split; [exact Hn|]. now rewrite Hadd.
Defined.

(** ** Decoding a byte into two pixels *)

Lemma nibbles_div_mod (x : Z) :
  0 <= x < 256 ->
  nibbles x = (x mod 16, x / 16) /\ 0 <= x mod 16 < 16 /\ 0 <= x / 16 < 16.
Proof.
  intros Hx. unfold nibbles.
  change 0x0F with (Z.ones 4).
  rewrite !Z.land_ones, Z.shiftr_div_pow2 by lia.
  change (2 ^ 4) with 16.
  assert (0 <= x / 16 < 16) by (split; [apply Z.div_pos|apply Z.div_lt_upper_bound]; lia).
  rewrite (Z.mod_small (x / 16)) by lia.
  split; [reflexivity|]. split; [apply Z.mod_pos_bound; lia|lia].
Qed.

Lemma palette_lookup (i : Z) :
  0 <= i < 16 ->
  exists c, py_getitem VIC_COLORS_BGR i = Ok c /\ VIC_COLORS_BGR !! Z.to_nat i = Some c.
Proof.
  intros Hi. unfold py_getitem, norm_index.
  change (length VIC_COLORS_BGR) with 16%nat.
  destruct (Z.leb_spec 0 i); [|lia].
  destruct (Z.ltb_spec i (Z.of_nat 16)); [|lia].
  cbn [andb rbind].
  destruct (VIC_COLORS_BGR !! Z.to_nat i) as [c|] eqn:E.
  - eauto.
  - apply lookup_ge_None in E. change (length VIC_COLORS_BGR) with 16%nat in E. lia.
Qed.

(** The two colours a byte stands for: the palette entries of its low
    and of its high nibble. *)
Lemma byte_colors (b : byte) :
  exists c1 c2 : color,
    VIC_COLORS_BGR !! Z.to_nat (byte_val b mod 16) = Some c1
    /\ VIC_COLORS_BGR !! Z.to_nat (byte_val b / 16) = Some c2
    /\ py_getitem VIC_COLORS_BGR (fst (nibbles (byte_val b))) = Ok c1
    /\ py_getitem VIC_COLORS_BGR (snd (nibbles (byte_val b))) = Ok c2.
Proof.
  destruct (nibbles_div_mod (byte_val b) (byte_val_range b)) as (Hn & Hlo & Hhi).
  destruct (palette_lookup _ Hlo) as (c1 & Hg1 & Hl1).
  destruct (palette_lookup _ Hhi) as (c2 & Hg2 & Hl2).
  exists c1, c2. rewrite Hn. cbn [fst snd]. auto.
Qed.

(** One byte of a line at byte index [i]: the low nibble's colour goes to
    column [2 i], the high nibble's to column [2 i + 1]. *)
Lemma decode_line_byte (f : frame) (row i : Z) (b : byte) (c1 c2 : color) :
  py_getitem VIC_COLORS_BGR (fst (nibbles (byte_val b))) = Ok c1 ->
  py_getitem VIC_COLORS_BGR (snd (nibbles (byte_val b))) = Ok c2 ->
  2 * i + 1 < PIXELS_PER_LINE ->
  decode_line f row i [b] =
    (try f1 <- frame_set f row (2 * i) c1; frame_set f1 row (2 * i + 1) c2).
Proof.
  intros H1 H2 Hi. cbn [decode_line].
  destruct (nibbles (byte_val b)) as [p1 p2]. cbn [fst snd] in H1, H2.
  replace (i * 2) with (2 * i) by lia.
  destruct (Z.ltb_spec (2 * i) PIXELS_PER_LINE); [|lia].
  destruct (Z.ltb_spec (2 * i + 1) PIXELS_PER_LINE); [|lia].
  rewrite H1. cbn [rbind].
  destruct (frame_set f row (2 * i) c1) as [f1|e]; cbn [rbind]; [|reflexivity].
  rewrite H2. cbn [rbind].
  now destruct (frame_set f1 row (2 * i + 1) c2).
Qed.

(** C7. Every byte decodes to the pair of palette entries of its low
    nibble ([b & 0x0F], the left pixel, column [2 i]) and of its high
    nibble ([(b >> 4) & 0x0F], column [2 i + 1]); both indices are below
    16, the length of the palette, so no lookup raises. Byte 0x1A gives
    the entries 10 and 1. *)
Theorem C7_byte_to_two_pixels (b : byte) :
  length VIC_COLORS_BGR = 16%nat
  /\ nibbles (byte_val b) = (byte_val b mod 16, byte_val b / 16)
  /\ 0 <= fst (nibbles (byte_val b)) < 16
  /\ 0 <= snd (nibbles (byte_val b)) < 16
  /\ (exists c1 c2 : color,
        VIC_COLORS_BGR !! Z.to_nat (byte_val b mod 16) = Some c1
        /\ VIC_COLORS_BGR !! Z.to_nat (byte_val b / 16) = Some c2
        /\ py_getitem VIC_COLORS_BGR (fst (nibbles (byte_val b))) = Ok c1
        /\ py_getitem VIC_COLORS_BGR (snd (nibbles (byte_val b))) = Ok c2
        /\ forall (f : frame) (row i : Z),
             2 * i + 1 < PIXELS_PER_LINE ->
             decode_line f row i [b] =
               (try f1 <- frame_set f row (2 * i) c1;
                frame_set f1 row (2 * i + 1) c2))
  /\ nibbles (byte_val x1a) = (0xA, 0x1)
  /\ py_getitem VIC_COLORS_BGR 0xA = Ok (0x6D, 0x67, 0xD1)
  /\ py_getitem VIC_COLORS_BGR 0x1 = Ok (0xEF, 0xEF, 0xEF).
Proof.
  destruct (nibbles_div_mod (byte_val b) (byte_val_range b)) as (Hn & Hlo & Hhi).
  split; [reflexivity|]. split; [exact Hn|].
  rewrite Hn. cbn [fst snd]. split; [exact Hlo|]. split; [exact Hhi|].
  split; [|repeat split; reflexivity].
  destruct (byte_colors b) as (c1 & c2 & Hl1 & Hl2 & Hg1 & Hg2).
  rewrite Hn in Hg1, Hg2. cbn [fst snd] in Hg1, Hg2.
  exists c1, c2. repeat (split; [assumption|]).
  intros f row i Hi. apply decode_line_byte; [rewrite Hn..|]; assumption.
Qed.

Lemma C7_byte_to_two_pixels_witness :
  exists c1 c2 : color,
    py_getitem VIC_COLORS_BGR 0xA = Ok c1
    /\ py_getitem VIC_COLORS_BGR 0x1 = Ok c2
    /\ decode_line [replicate 384 zero_color] 0 5 [x1a] =
         (try f1 <- frame_set [replicate 384 zero_color] 0 10 c1;
          frame_set f1 0 11 c2).
Proof.
  destruct (C7_byte_to_two_pixels x1a)
    as (_ & _ & _ & _ & (c1 & c2 & _ & _ & H1 & H2 & Hdec) & _).
  exists c1, c2. split; [exact H1|]. split; [exact H2|].
  apply (Hdec [replicate 384 zero_color] 0 5). unfold PIXELS_PER_LINE. lia.
Defined.

(** ** The stream commands *)

(** C3. The start command for stream 0 to 10.0.0.5, port 11000, is
    0x20, 0xFF, the length 2 + 14 = 16 in two little-endian bytes, the
    duration 0x00, 0x00 and the ASCII bytes of [10.0.0.5:11000]; the stop
    command for stream 1 is 0x31, 0xFF, 0x00, 0x00. *)
Theorem C3_start_and_stop_bytes (host : string) :
  (exists len_lo len_hi : byte,
     send_ultimate64_stream_command host 0 true "10.0.0.5" 11000
       = Ok ([x20; xff; len_lo; len_hi; x00; x00]
               ++ list_byte_of_string "10.0.0.5:11000")
     /\ byte_val len_lo + 256 * byte_val len_hi
        = 2 + Z.of_nat (String.length "10.0.0.5:11000"))
  /\ send_ultimate64_stream_command host 0 true "10.0.0.5" 11000
     = Ok [x20; xff; x10; x00; x00; x00;
           x31; x30; x2e; x30; x2e; x30; x2e; x35; x3a;
           x31; x31; x30; x30; x30]
  /\ send_ultimate64_stream_command host 1 false "10.0.0.5" 11000
     = Ok [x31; xff; x00; x00].
Proof.
  split; [|split; reflexivity].
  exists x10, x00. split; reflexivity.
Qed.

(** ** The DC blocker *)

(** C1, at the packet [step_packet] on a fresh filter: the source emits
    zero for every sample and keeps the last pair as its state, whereas
    the recurrence [y[n] = x[n] - x[n-1] + alpha * y[n-1]], from the zero
    state on the inputs 0 and 1000 of either channel, emits 1000 for the
    second pair. (Every value that occurs in the source's computation
    here is 0 or 1000.) *)
Theorem C1_dc_blocker_step_packet :
  length step_packet = 384%nat
  /\ (exists stereo : list (Z * Z),
        reshape2 step_packet = Ok stereo
        /\ stereo !! 0%nat = Some (0, 0)
        /\ stereo !! 1%nat = Some (1000, 1000))
  /\ _remove_dc_offset dc_filter_init step_packet
     = Ok (repeat (0, 0) 192, (inject_Z 1000, inject_Z 1000))
  /\ emit (last_output (recurrence_step dc_channel_init 0)) = 0
  /\ emit (last_output (recurrence_step (recurrence_step dc_channel_init 0) 1000))
     = 1000.
Proof.
  split; [reflexivity|]. split.
  - eexists. split; [vm_compute; reflexivity|]. split; reflexivity.
  - split; [vm_compute; reflexivity|]. split; reflexivity.
Qed.

(** ** Writes into the frame buffer *)

Lemma norm_index_in (n : nat) (i : Z) :
  0 <= i < Z.of_nat n -> norm_index n i = Ok (Z.to_nat i).
Proof.
  intros H. unfold norm_index.
  destruct (Z.leb_spec 0 i); [|lia].
  destruct (Z.ltb_spec i (Z.of_nat n)); [|lia].
  reflexivity.
Qed.

Lemma shape_row (h : nat) (f : frame) (r : nat) :
  shape h f -> (r < h)%nat ->
  exists row, f !! r = Some row /\ length row = Z.to_nat PIXELS_PER_LINE.
Proof.
  intros [Hlen Hrows] Hr.
  destruct (lookup_lt_is_Some_2 f r) as [row Hrow]; [lia|].
  exists row. split; [exact Hrow|].
  exact (Forall_lookup_1 _ _ _ _ Hrows Hrow).
Qed.

(** A write at a row and a column of the buffer succeeds, keeps the
    shape and changes that one pixel. *)
Lemma frame_set_spec (h : nat) (f : frame) (row col : Z) (c : color) :
  shape h f ->
  0 <= row < Z.of_nat h ->
  0 <= col < PIXELS_PER_LINE ->
  exists f',
    frame_set f row col c = Ok f'
    /\ shape h f'
    /\ forall r x,
         pixel f' r x =
           if (r =? Z.to_nat row)%nat && (x =? Z.to_nat col)%nat then Some c
           else pixel f r x.
Proof.
  intros Hs Hrow Hcol.
  destruct (shape_row h f (Z.to_nat row) Hs) as (line & Hline & Hlen); [lia|].
  pose proof Hs as [Hf Hrows].
  unfold frame_set.
  rewrite norm_index_in by lia. cbn [rbind]. rewrite Hline.
  rewrite norm_index_in by (rewrite Hlen; unfold PIXELS_PER_LINE in *; lia).
  cbn [rbind]. eexists. split; [reflexivity|]. split.
  - split.
    + now rewrite length_insert.
    + apply Forall_insert; [exact Hrows|]. cbn beta. now rewrite length_insert.
  - intros r x. unfold pixel.
    destruct (Nat.eqb_spec r (Z.to_nat row)) as [->|Hr].
    + rewrite list_lookup_insert_eq by lia. rewrite Hline.
      destruct (Nat.eqb_spec x (Z.to_nat col)) as [->|Hx]; cbn [andb].
      * apply list_lookup_insert_eq. rewrite Hlen. unfold PIXELS_PER_LINE in *. lia.
      * now apply list_lookup_insert_ne.
    + cbn [andb]. now rewrite list_lookup_insert_ne.
Qed.

Lemma getitem_low (b : byte) :
  py_getitem VIC_COLORS_BGR (fst (nibbles (byte_val b))) = Ok (low_color b).
Proof.
  destruct (byte_colors b) as (c1 & c2 & Hl1 & Hl2 & Hg1 & Hg2).
  rewrite Hg1. unfold low_color.
  destruct (nibbles_div_mod (byte_val b) (byte_val_range b)) as (Hn & _).
  rewrite Hn. cbn [fst]. now rewrite (nth_lookup_Some _ _ zero_color _ Hl1).
Qed.

Lemma getitem_high (b : byte) :
  py_getitem VIC_COLORS_BGR (snd (nibbles (byte_val b))) = Ok (high_color b).
Proof.
  destruct (byte_colors b) as (c1 & c2 & Hl1 & Hl2 & Hg1 & Hg2).
  rewrite Hg2. unfold high_color.
  destruct (nibbles_div_mod (byte_val b) (byte_val_range b)) as (Hn & _).
  rewrite Hn. cbn [snd]. now rewrite (nth_lookup_Some _ _ zero_color _ Hl2).
Qed.

(** One guarded write of [decode_line]. *)
Lemma guarded_write (h : nat) (f : frame) (row col p : Z) (c : color) :
  shape h f ->
  0 <= row < Z.of_nat h ->
  0 <= col ->
  py_getitem VIC_COLORS_BGR p = Ok c ->
  exists f',
    (if col <? PIXELS_PER_LINE then
       try c <- py_getitem VIC_COLORS_BGR p; frame_set f row col c
     else Ok f) = Ok f'
    /\ shape h f'
    /\ forall r x,
         pixel f' r x =
           if (r =? Z.to_nat row)%nat && (x =? Z.to_nat col)%nat
              && (x <? Z.to_nat PIXELS_PER_LINE)%nat
           then Some c
           else pixel f r x.
Proof.
  intros Hs Hrow Hcol Hp.
  destruct (Z.ltb_spec col PIXELS_PER_LINE) as [Hlt|Hge].
  - rewrite Hp. cbn [rbind].
    destruct (frame_set_spec h f row col c Hs Hrow) as (f' & Hset & Hs' & Hpix); [lia|].
    exists f'. split; [exact Hset|]. split; [exact Hs'|].
    intros r x. rewrite Hpix.
    destruct (Nat.eqb_spec r (Z.to_nat row)); [|reflexivity].
    destruct (Nat.eqb_spec x (Z.to_nat col)) as [->|]; [|reflexivity].
    cbn [andb]. destruct (Nat.ltb_spec (Z.to_nat col) (Z.to_nat PIXELS_PER_LINE));
      [reflexivity|lia].
  - exists f. split; [reflexivity|]. split; [exact Hs|].
    intros r x.
    destruct (Nat.eqb_spec r (Z.to_nat row)); [|reflexivity].
    destruct (Nat.eqb_spec x (Z.to_nat col)) as [->|]; [|reflexivity].
    cbn [andb]. destruct (Nat.ltb_spec (Z.to_nat col) (Z.to_nat PIXELS_PER_LINE));
      [lia|reflexivity].
Qed.

Lemma line_pixel_cons (b : byte) (rest : bytes) (i x : nat) :
  line_pixel (b :: rest) i x =
    if (x <? Z.to_nat PIXELS_PER_LINE)%nat && (x =? 2 * i)%nat then Some (low_color b)
    else if (x <? Z.to_nat PIXELS_PER_LINE)%nat && (x =? 2 * i + 1)%nat then Some (high_color b)
    else line_pixel rest (S i) x.
Proof.
  unfold line_pixel.
  destruct (Nat.ltb_spec x (Z.to_nat PIXELS_PER_LINE)) as [Hx|Hx]; cbn [andb];
    [|reflexivity].
  destruct (Nat.eqb_spec x (2 * i)) as [->|H0].
  { destruct (Nat.leb_spec (2 * i) (2 * i)); [|lia].
    replace (2 * i / 2 - i)%nat with 0%nat
      by (rewrite (Nat.mul_comm 2 i), Nat.div_mul by lia; lia).
    cbn [lookup list_lookup]. now rewrite Nat.even_mul. }
  destruct (Nat.eqb_spec x (2 * i + 1)) as [->|H1].
  { destruct (Nat.leb_spec (2 * i) (2 * i + 1)); [|lia].
    replace ((2 * i + 1) / 2 - i)%nat with 0%nat.
    2:{ rewrite (Nat.add_comm (2 * i) 1), (Nat.mul_comm 2 i), Nat.div_add by lia.
        cbn. lia. }
    cbn [lookup list_lookup].
    rewrite (Nat.add_comm (2 * i) 1), Nat.even_add_mul_2. reflexivity. }
  destruct (Nat.leb_spec (2 * i) x) as [Hle|Hlt].
  - destruct (Nat.leb_spec (2 * S i) x) as [_|]; [|lia].
    assert (Hdiv : (S i <= x / 2)%nat).
    { apply Nat.div_le_lower_bound; lia. }
    replace (x / 2 - i)%nat with (S (x / 2 - S i)) by lia.
    reflexivity.
  - destruct (Nat.leb_spec (2 * S i) x); [lia|reflexivity].
Qed.

(** The bytes of a line, from byte index [i] on, written into row [row]. *)
Lemma decode_line_spec (h : nat) (row : Z) (line_data : bytes) :
  0 <= row < Z.of_nat h ->
  forall (i : nat) (f : frame),
    shape h f ->
    exists f',
      decode_line f row (Z.of_nat i) line_data = Ok f'
      /\ shape h f'
      /\ forall r x,
           pixel f' r x =
             if (r =? Z.to_nat row)%nat then
               match line_pixel line_data i x with
               | Some c => Some c
               | None => pixel f r x
               end
             else pixel f r x.
Proof.
  intros Hrow. induction line_data as [|b rest IH]; intros i f Hs.
  - exists f. split; [reflexivity|]. split; [exact Hs|].
    intros r x. unfold line_pixel. rewrite lookup_nil.
    destruct (_ && _); now destruct (r =? _)%nat.
  - cbn [decode_line].
    pose proof (getitem_low b) as Hlo. pose proof (getitem_high b) as Hhi.
    destruct (nibbles (byte_val b)) as [p1 p2]. cbn [fst snd] in Hlo, Hhi.
    destruct (guarded_write h f row (Z.of_nat i * 2) p1 _ Hs Hrow ltac:(lia) Hlo)
      as (f1 & -> & Hs1 & Hpix1).
    cbn [rbind].
    destruct (guarded_write h f1 row (Z.of_nat i * 2 + 1) p2 _ Hs1 Hrow ltac:(lia) Hhi)
      as (f2 & -> & Hs2 & Hpix2).
    cbn [rbind].
    replace (Z.of_nat i + 1) with (Z.of_nat (S i)) by lia.
    destruct (IH (S i) f2 Hs2) as (f' & Hdec & Hs' & Hpix').
    exists f'. split; [exact Hdec|]. split; [exact Hs'|].
    intros r x. rewrite Hpix', Hpix2, Hpix1, line_pixel_cons.
    replace (Z.to_nat (Z.of_nat i * 2)) with (2 * i)%nat by lia.
    replace (Z.to_nat (Z.of_nat i * 2 + 1)) with (2 * i + 1)%nat by lia.
    destruct (Nat.eqb_spec r (Z.to_nat row)); [|reflexivity].
    cbn [andb].
    destruct (Nat.ltb_spec x (Z.to_nat PIXELS_PER_LINE)); cbn [andb];
      rewrite ?andb_false_r.
    + destruct (Nat.eqb_spec x (2 * i)) as [->|].
      * destruct (Nat.eqb_spec (2 * i) (2 * i + 1)); [lia|].
        unfold line_pixel.
        destruct (Nat.leb_spec (2 * S i) (2 * i)); [lia|].
        now rewrite andb_false_r.
      * destruct (Nat.eqb_spec x (2 * i + 1)) as [->|].
        -- unfold line_pixel.
           destruct (Nat.leb_spec (2 * S i) (2 * i + 1)); [lia|].
           now rewrite andb_false_r.
        -- reflexivity.
    + reflexivity.
Qed.

(** The sub-lines [k], ..., [k + n - 1] of a packet, decoded up to the
    first line at or below [height]. *)
Lemma decode_packet_from (h : nat) (line_num : Z) (pixel_data : bytes) :
  0 <= line_num ->
  forall (n k : nat) (f : frame),
    shape h f ->
    exists f',
      decode_packet f (Z.of_nat h) line_num pixel_data (map Z.of_nat (seq k n)) = Ok f'
      /\ shape h f'
      /\ forall r x,
           pixel f' r x =
             if (line_num + Z.of_nat k <=? Z.of_nat r)
                && (Z.of_nat r <? line_num + Z.of_nat k + Z.of_nat n)
                && (Z.of_nat r <? Z.of_nat h)
             then match line_pixel (sub_line pixel_data (Z.of_nat r - line_num)) 0 x with
                  | Some c => Some c
                  | None => pixel f r x
                  end
             else pixel f r x.
Proof.
  intros Hline. induction n as [|n IH]; intros k f Hs.
  - exists f. split; [reflexivity|]. split; [exact Hs|].
    intros r x.
    destruct (Z.leb_spec (line_num + Z.of_nat k) (Z.of_nat r)); [|reflexivity].
    destruct (Z.ltb_spec (Z.of_nat r) (line_num + Z.of_nat k + Z.of_nat 0));
      [lia|reflexivity].
  - cbn [seq map decode_packet].
    destruct (Z.geb_spec (line_num + Z.of_nat k) (Z.of_nat h)) as [Hout|Hin].
    + (* break *)
      exists f. split; [reflexivity|]. split; [exact Hs|].
      intros r x.
      destruct (Z.leb_spec (line_num + Z.of_nat k) (Z.of_nat r)); [|reflexivity].
      destruct (Z.ltb_spec (Z.of_nat r) (Z.of_nat h)); [lia|].
      now rewrite andb_false_r.
    + destruct (decode_line_spec h (line_num + Z.of_nat k)
                  (sub_line pixel_data (Z.of_nat k)) ltac:(lia) 0%nat f Hs)
        as (f1 & Hdec & Hs1 & Hpix1).
      unfold sub_line in Hdec. change (Z.of_nat 0) with 0 in Hdec.
      rewrite Hdec. cbn [rbind].
      destruct (IH (S k) f1 Hs1) as (f' & Hrest & Hs' & Hpix').
      exists f'. split; [exact Hrest|]. split; [exact Hs'|].
      intros r x. rewrite Hpix', Hpix1.
      destruct (Z.ltb_spec (Z.of_nat r) (Z.of_nat h)) as [Hr|Hr];
        rewrite ?andb_true_r, ?andb_false_r.
      2:{ destruct (Nat.eqb_spec r (Z.to_nat (line_num + Z.of_nat k))); [lia|reflexivity]. }
      destruct (Nat.eqb_spec r (Z.to_nat (line_num + Z.of_nat k))) as [Hrk|Hrk].
      * destruct (Z.leb_spec (line_num + Z.of_nat (S k)) (Z.of_nat r)); [lia|].
        destruct (Z.leb_spec (line_num + Z.of_nat k) (Z.of_nat r)); [|lia].
        destruct (Z.ltb_spec (Z.of_nat r) (line_num + Z.of_nat k + Z.of_nat (S n))); [|lia].
        cbn [andb].
        replace (Z.of_nat r - line_num) with (Z.of_nat k) by lia. reflexivity.
      * destruct (Z.leb_spec (line_num + Z.of_nat (S k)) (Z.of_nat r));
          destruct (Z.leb_spec (line_num + Z.of_nat k) (Z.of_nat r)); try lia;
          cbn [andb]; [|reflexivity].
        destruct (Z.ltb_spec (Z.of_nat r) (line_num + Z.of_nat (S k) + Z.of_nat n));
          destruct (Z.ltb_spec (Z.of_nat r) (line_num + Z.of_nat k + Z.of_nat (S n)));
          try lia; reflexivity.
Qed.

(** A stored packet decoded into the buffer. *)
Lemma decode_packet_spec (h : nat) (line_num : Z) (pixel_data : bytes) (f : frame) :
  0 <= line_num ->
  shape h f ->
  exists f',
    decode_packet f (Z.of_nat h) line_num pixel_data (py_range LINES_PER_PACKET) = Ok f'
    /\ shape h f'
    /\ forall r x,
         pixel f' r x =
           match packet_pixel (Z.of_nat h) line_num pixel_data r x with
           | Some c => Some c
           | None => pixel f r x
           end.
Proof.
  intros Hline Hs.
  destruct (decode_packet_from h line_num pixel_data Hline 4 0 f Hs)
    as (f' & Hdec & Hs' & Hpix).
  exists f'. split; [exact Hdec|]. split; [exact Hs'|].
  intros r x. rewrite Hpix. unfold packet_pixel, sub_line, LINES_PER_PACKET.
  destruct (Z.leb_spec (line_num + Z.of_nat 0) (Z.of_nat r));
    destruct (Z.leb_spec 0 (Z.of_nat r - line_num)); try lia; cbn [andb];
    [|reflexivity].
  destruct (Z.ltb_spec (Z.of_nat r) (line_num + Z.of_nat 0 + Z.of_nat 4));
    destruct (Z.ltb_spec (Z.of_nat r - line_num) 4); try lia; cbn [andb];
    [|reflexivity].
  destruct (Z.of_nat r <? Z.of_nat h); reflexivity.
Qed.

(** All stored packets decoded in dictionary order. *)
Lemma assemble_spec (h : nat) (items : list (Z * (Z * bytes))) :
  Forall (fun item => 0 <= fst (snd item)) items ->
  forall f : frame,
    shape h f ->
    exists f',
      assemble f (Z.of_nat h) items = Ok f'
      /\ shape h f'
      /\ forall r x, pixel f' r x = painted (Z.of_nat h) items r x (pixel f r x).
Proof.
  induction items as [|[idx [line_num pixel_data]] rest IH]; intros Hall f Hs.
  - exists f. split; [reflexivity|]. split; [exact Hs|]. reflexivity.
  - inversion Hall as [|? ? Hline Hrest]; subst. cbn [fst snd] in Hline.
    cbn [assemble].
    destruct (decode_packet_spec h line_num pixel_data f Hline Hs)
      as (f1 & -> & Hs1 & Hpix1).
    cbn [rbind].
    destruct (IH Hrest f1 Hs1) as (f' & Hasm & Hs' & Hpix').
    exists f'. split; [exact Hasm|]. split; [exact Hs'|].
    intros r x. rewrite Hpix', Hpix1. reflexivity.
Qed.

Lemma np_zeros_spec (h : Z) :
  0 <= h ->
  exists f,
    np_zeros h PIXELS_PER_LINE = Ok f
    /\ shape (Z.to_nat h) f
    /\ forall r x,
         pixel f r x =
           if (r <? Z.to_nat h)%nat && (x <? Z.to_nat PIXELS_PER_LINE)%nat
           then Some zero_color else None.
Proof.
  intros Hh. unfold np_zeros, shape, PIXELS_PER_LINE.
  destruct (Z.ltb_spec h 0); [lia|]. cbn [orb Z.ltb Z.compare].
  eexists. split; [reflexivity|]. split.
  - split; [apply length_replicate|].
    apply Forall_replicate. apply length_replicate.
  - intros r x. unfold pixel.
    destruct (Nat.ltb_spec r (Z.to_nat h)) as [Hr|Hr]; cbn [andb].
    + rewrite lookup_replicate_2 by exact Hr.
      destruct (Nat.ltb_spec x (Z.to_nat 384)) as [Hx|Hx].
      * now rewrite lookup_replicate_2.
      * apply lookup_replicate_None. lia.
    + assert (E : replicate (Z.to_nat h) (replicate (Z.to_nat 384) zero_color) !! r = None)
        by (apply lookup_replicate_None; exact Hr).
      now rewrite E.
Qed.

(** [get_frame] on a complete frame whose stored lines and height are not
    negative: a buffer of [height] rows in which each pixel is as the
    last stored packet covering it painted it, and zero without one. *)
Lemma get_frame_painted (s : C64FrameAssembler) :
  is_complete s = true ->
  0 <= height s ->
  Forall (fun item => 0 <= fst (snd item)) (packets s) ->
  exists f,
    get_frame s = Ok (Some f)
    /\ shape (Z.to_nat (height s)) f
    /\ forall r x,
         (r < Z.to_nat (height s))%nat -> (x < Z.to_nat PIXELS_PER_LINE)%nat ->
         pixel f r x = painted (height s) (packets s) r x (Some zero_color).
Proof.
  intros Hc Hh Hlines. unfold get_frame. rewrite Hc. cbn [negb].
  destruct (np_zeros_spec (height s) Hh) as (f0 & -> & Hs0 & Hpix0).
  cbn [rbind].
  destruct (assemble_spec (Z.to_nat (height s)) (packets s) Hlines f0 Hs0)
    as (f & Hasm & Hs & Hpix).
  rewrite Z2Nat.id in Hasm, Hpix by exact Hh.
  rewrite Hasm. cbn [rbind].
  exists f. split; [reflexivity|]. split; [exact Hs|].
  intros r x Hr Hx. rewrite Hpix, Hpix0.
  destruct (Nat.ltb_spec r (Z.to_nat (height s))); [|lia].
  destruct (Nat.ltb_spec x (Z.to_nat PIXELS_PER_LINE)); [|lia].
  reflexivity.
Qed.

(** ** The stored packets under aligned calls *)

Lemma dict_set_keys {V : Type} (k : Z) (v : V) (d : list (Z * V)) (k' : Z) :
  In k' (map fst (dict_set k v d)) <-> k' = k \/ In k' (map fst d).
Proof.
  induction d as [|[k0 v0] d IH]; simpl.
  - intuition.
  - destruct (Z.eqb_spec k0 k) as [->|Hne]; simpl; [intuition|].
    rewrite IH. intuition.
Qed.

Lemma dict_set_NoDup {V : Type} (k : Z) (v : V) (d : list (Z * V)) :
  NoDup (map fst d) -> NoDup (map fst (dict_set k v d)).
Proof.
  induction d as [|[k0 v0] d IH]; simpl; intros Hnd.
  - constructor; [apply not_elem_of_nil|constructor].
  - apply NoDup_cons in Hnd as [Hnotin Hnd].
    destruct (Z.eqb_spec k0 k) as [->|Hne]; simpl; apply NoDup_cons.
    + split; assumption.
    + split; [|now apply IH].
      rewrite list_elem_of_In, dict_set_keys. rewrite list_elem_of_In in Hnotin.
      intros [E|Hin]; [congruence|contradiction].
Qed.

Lemma dict_set_Forall {V : Type} (P : Z * V -> Prop) (k : Z) (v : V) (d : list (Z * V)) :
  P (k, v) -> Forall P d -> Forall P (dict_set k v d).
Proof.
  intros Hkv. induction d as [|[k0 v0] d IH]; simpl; intros Hall.
  - constructor; [exact Hkv|constructor].
  - inversion Hall; subst.
    destruct (Z.eqb k0 k); constructor; auto.
Qed.

Lemma dict_get_None {V : Type} (k : Z) (d : list (Z * V)) :
  dict_get k d = None <-> ~ In k (map fst d).
Proof.
  induction d as [|[k0 v0] d IH]; simpl.
  - intuition.
  - destruct (Z.eqb_spec k0 k) as [->|Hne].
    + split; [discriminate|]. intros H. contradiction H. now left.
    + rewrite IH. intuition.
Qed.

Lemma add_call_aligned (s : C64FrameAssembler) (c : call) :
  aligned_call c -> aligned_state s -> aligned_state (add_call s c).
Proof.
  intros (Hlpp & Hline & Hmod) [[Hnd Hall] Hh].
  assert (Hs1 : aligned_state (start_frame s (c_frame c))).
  { unfold start_frame. destruct (frame_differs _ _).
    - split; [split; [constructor|constructor]|]. cbn. intros H. now contradiction H.
    - split; [split|]; assumption. }
  destruct Hs1 as [[Hnd1 Hall1] Hh1].
  unfold add_call, add_packet. rewrite Hlpp. cbn [Z.eqb LINES_PER_PACKET].
  assert (Hitems : aligned_items
            (dict_set (c_line c / 4) (c_line c, c_data c)
               (packets (start_frame s (c_frame c))))).
  { split.
    - now apply dict_set_NoDup.
    - apply dict_set_Forall; [|exact Hall1]. cbn [fst snd].
      unfold LINES_PER_PACKET in *. split.
      + apply Z.div_pos; lia.
      + pose proof (Z.div_mod (c_line c) 4). lia. }
  destruct (c_last c); cbn [fst]; split; cbn [packets expected_packets height];
    try exact Hitems.
  - intros _. unfold LINES_PER_PACKET in *. lia.
  - exact Hh1.
Qed.

Lemma run_aligned (cs : list call) (s : C64FrameAssembler) :
  Forall aligned_call cs -> aligned_state s -> aligned_state (run s cs).
Proof.
  revert s. induction cs as [|c cs IH]; intros s Hall Hs; simpl; [exact Hs|].
  inversion Hall; subst. apply IH; [assumption|]. now apply add_call_aligned.
Qed.

Lemma assembler_init_aligned : aligned_state assembler_init.
Proof.
  split; [split; constructor|]. intros _. unfold assembler_init, PAL_HEIGHT. simpl. lia.
Qed.

(** ** Pixels of aligned frames *)

Lemma packet_pixel_covers (height line_num : Z) (pixel_data : bytes) (r x : nat) :
  ~ (line_num <= Z.of_nat r < line_num + LINES_PER_PACKET) ->
  packet_pixel height line_num pixel_data r x = None.
Proof.
  intros H. unfold packet_pixel.
  destruct (Z.leb_spec 0 (Z.of_nat r - line_num)); [|reflexivity].
  destruct (Z.ltb_spec (Z.of_nat r - line_num) LINES_PER_PACKET); [|reflexivity].
  lia.
Qed.

Lemma painted_uncovered (height : Z) (items : list (Z * (Z * bytes))) (r x : nat)
    (base : option color) :
  Forall (fun item => ~ (fst (snd item) <= Z.of_nat r
                         < fst (snd item) + LINES_PER_PACKET)) items ->
  painted height items r x base = base.
Proof.
  revert base. induction items as [|[idx [line_num pixel_data]] rest IH];
    intros base Hall; [reflexivity|].
  inversion Hall as [|? ? Hhd Htl]; subst. cbn [fst snd] in Hhd.
  cbn [painted]. rewrite packet_pixel_covers by exact Hhd. now apply IH.
Qed.

(** Aligned packets of other indices do not cover the lines of index [k]. *)
Lemma aligned_others_uncover (items : list (Z * (Z * bytes))) (k : Z) (r : nat) :
  Forall (fun item => 0 <= fst item
                      /\ fst (snd item) = LINES_PER_PACKET * fst item) items ->
  ~ In k (map fst items) ->
  LINES_PER_PACKET * k <= Z.of_nat r < LINES_PER_PACKET * k + LINES_PER_PACKET ->
  Forall (fun item => ~ (fst (snd item) <= Z.of_nat r
                         < fst (snd item) + LINES_PER_PACKET)) items.
Proof.
  intros Hall Hk Hr. induction items as [|[idx [line_num pixel_data]] rest IH];
    [constructor|].
  inversion Hall as [|? ? [Hidx Hline] Htl]; subst. cbn [fst snd] in *.
  constructor.
  - cbn [fst snd]. unfold LINES_PER_PACKET in *.
    assert (idx <> k) by (intros ->; apply Hk; now left).
    lia.
  - apply IH; [exact Htl|]. intros Hin. apply Hk. now right.
Qed.

Lemma painted_aligned (height : Z) (items : list (Z * (Z * bytes)))
    (idx line_num : Z) (pixel_data : bytes) (r x : nat) (base : option color) :
  aligned_items items ->
  In (idx, (line_num, pixel_data)) items ->
  line_num <= Z.of_nat r < line_num + LINES_PER_PACKET ->
  painted height items r x base =
    match packet_pixel height line_num pixel_data r x with
    | Some c => Some c
    | None => base
    end.
Proof.
  intros [Hnd Hall] Hin Hr. revert base.
  induction items as [|[idx0 [line0 data0]] rest IH]; intros base; [contradiction|].
  cbn [map fst] in Hnd. apply NoDup_cons in Hnd as [Hnotin Hnd].
  rewrite list_elem_of_In in Hnotin.
  inversion Hall as [|? ? [Hidx0 Hline0] Htl]; subst. cbn [fst snd] in *.
  cbn [painted].
  destruct Hin as [E|Hin].
  - injection E as -> -> ->.
    apply painted_uncovered.
    apply (aligned_others_uncover rest idx r Htl Hnotin).
    unfold LINES_PER_PACKET in *. lia.
  - assert (Hne : idx0 <> idx).
    { intros ->. apply Hnotin. apply in_map_iff. now exists (idx, (line_num, pixel_data)). }
    assert (Hline : line_num = LINES_PER_PACKET * idx).
    { rewrite Forall_forall in Htl. apply list_elem_of_In in Hin.
      now destruct (Htl _ Hin). }
    rewrite packet_pixel_covers by (unfold LINES_PER_PACKET in *; lia).
    now apply IH.
Qed.

Lemma sub_line_length (pixel_data : bytes) (off : Z) :
  (length (sub_line pixel_data off) <= 192)%nat.
Proof.
  unfold sub_line, py_slice, BYTES_PER_LINE. rewrite length_take.
  replace (off * 192 + 192 - off * 192) with 192 by lia.
  change (Z.to_nat 192) with 192%nat. lia.
Qed.

Lemma line_pixel_even (line_data : bytes) (j : nat) (b : byte) :
  line_data !! j = Some b ->
  (2 * j < Z.to_nat PIXELS_PER_LINE)%nat ->
  line_pixel line_data 0 (2 * j) = Some (low_color b).
Proof.
  intros Hb Hj. unfold line_pixel.
  destruct (Nat.ltb_spec (2 * j) (Z.to_nat PIXELS_PER_LINE)); [|lia].
  destruct (Nat.leb_spec (2 * 0) (2 * j)); [|lia].
  cbn [andb].
  replace (2 * j / 2 - 0)%nat with j
    by (rewrite (Nat.mul_comm 2 j), Nat.div_mul by lia; lia).
  rewrite Hb, Nat.even_mul. reflexivity.
Qed.

Lemma line_pixel_odd (line_data : bytes) (j : nat) (b : byte) :
  line_data !! j = Some b ->
  (2 * j + 1 < Z.to_nat PIXELS_PER_LINE)%nat ->
  line_pixel line_data 0 (2 * j + 1) = Some (high_color b).
Proof.
  intros Hb Hj. unfold line_pixel.
  destruct (Nat.ltb_spec (2 * j + 1) (Z.to_nat PIXELS_PER_LINE)); [|lia].
  destruct (Nat.leb_spec (2 * 0) (2 * j + 1)); [|lia].
  cbn [andb].
  replace ((2 * j + 1) / 2 - 0)%nat with j.
  2:{ rewrite (Nat.add_comm (2 * j) 1), (Nat.mul_comm 2 j), Nat.div_add by lia.
      cbn. lia. }
  rewrite Hb, (Nat.add_comm (2 * j) 1), Nat.even_add_mul_2. reflexivity.
Qed.

(** The two pixels a byte of a stored sub-line gives. *)
Lemma packet_pixel_byte (height line_num : Z) (pixel_data : bytes)
    (off : Z) (j : nat) (b : byte) :
  0 <= line_num ->
  0 <= off < LINES_PER_PACKET ->
  line_num + off < height ->
  sub_line pixel_data off !! j = Some b ->
  packet_pixel height line_num pixel_data (Z.to_nat (line_num + off)) (2 * j)
    = Some (low_color b)
  /\ packet_pixel height line_num pixel_data (Z.to_nat (line_num + off)) (2 * j + 1)
     = Some (high_color b).
Proof.
  intros Hline Hoff Hr Hb.
  assert (Hj : (j < 192)%nat).
  { apply lookup_lt_Some in Hb. pose proof (sub_line_length pixel_data off). lia. }
  unfold packet_pixel. rewrite Z2Nat.id by lia.
  replace (line_num + off - line_num) with off by lia.
  destruct (Z.leb_spec 0 off); [|lia].
  destruct (Z.ltb_spec off LINES_PER_PACKET); [|lia].
  destruct (Z.ltb_spec (line_num + off) height); [|lia].
  cbn [andb]. fold (sub_line pixel_data off).
  split; [apply line_pixel_even|apply line_pixel_odd]; try exact Hb;
    unfold PIXELS_PER_LINE; lia.
Qed.

(** [get_frame] on an aligned state. *)
Lemma get_frame_aligned (s : C64FrameAssembler) :
  aligned_state s ->
  (is_complete s = false -> get_frame s = Ok None)
  /\ (is_complete s = true ->
      exists f, get_frame s = Ok (Some f) /\ frame_decoded s f).
Proof.
  intros [Hitems Hh]. split.
  { intros Hc. unfold get_frame. now rewrite Hc. }
  intros Hc.
  assert (Hheight : 0 <= height s).
  { apply Hh. unfold is_complete in Hc.
    destruct (Z.eqb_spec (expected_packets s) 0); [discriminate|assumption]. }
  assert (Hlines : Forall (fun item => 0 <= fst (snd item)) (packets s)).
  { destruct Hitems as [_ Hall]. eapply Forall_impl; [exact Hall|].
    intros item [H0 ->]. unfold LINES_PER_PACKET. lia. }
  destruct (get_frame_painted s Hc Hheight Hlines) as (f & Hget & Hshape & Hpix).
  exists f. split; [exact Hget|]. split; [exact Hshape|]. split.
  - intros idx line_num pixel_data Hin off j b Hoff Hr Hb.
    assert (Hline : 0 <= line_num).
    { rewrite Forall_forall in Hlines. apply list_elem_of_In in Hin.
      exact (Hlines _ Hin). }
    assert (Hj : (j < 192)%nat).
    { apply lookup_lt_Some in Hb. pose proof (sub_line_length pixel_data off). lia. }
    destruct (packet_pixel_byte (height s) line_num pixel_data off j b
                Hline Hoff Hr Hb) as [Hlo Hhi].
    rewrite !Hpix by (unfold PIXELS_PER_LINE; lia).
    rewrite !(painted_aligned (height s) (packets s) idx line_num pixel_data)
      by (try assumption; unfold LINES_PER_PACKET in *; lia).
    rewrite Hlo, Hhi. split; reflexivity.
  - intros k r x Hk Hget_k Hr Hrh Hx.
    rewrite Hpix by lia.
    apply painted_uncovered.
    destruct Hitems as [_ Hall].
    apply (aligned_others_uncover (packets s) k r Hall); [|exact Hr].
    now apply dict_get_None.
Qed.

(** ** The frame [get_frame] returns *)

(** C8, as amended. [get_frame] returns nothing while the frame is not
    complete. After calls of [add_packet] with four lines per packet and
    line numbers that are non-negative multiples of four, on a complete
    frame it returns a buffer of [height] rows of 384 pixels in which
    every sub-line below [height] of every stored packet is decoded, byte
    [j] to the columns [2 j] and [2 j + 1] of its line, and in which the
    lines of every packet index without a stored packet are zero. No
    write raises, so none lands outside the buffer. *)
Theorem C8_get_frame_aligned :
  (forall s : C64FrameAssembler, is_complete s = false -> get_frame s = Ok None)
  /\ (forall cs : list call,
        Forall aligned_call cs ->
        is_complete (run assembler_init cs) = true ->
        exists f : frame,
          get_frame (run assembler_init cs) = Ok (Some f)
          /\ frame_decoded (run assembler_init cs) f).
Proof.
  split.
  - intros s Hc. unfold get_frame. now rewrite Hc.
  - intros cs Hall Hc.
    apply get_frame_aligned; [|exact Hc].
    apply run_aligned; [exact Hall|apply assembler_init_aligned].
Qed.

Lemma C8_get_frame_aligned_witness :
  Forall aligned_call aligned_calls
  /\ is_complete (run assembler_init aligned_calls) = true
  /\ exists f : frame,
       get_frame (run assembler_init aligned_calls) = Ok (Some f)
       /\ frame_decoded (run assembler_init aligned_calls) f.
Proof.
  assert (H : Forall aligned_call aligned_calls).
  { repeat constructor; cbn; lia. }
  split; [exact H|]. split; [reflexivity|].
  exact (proj2 C8_get_frame_aligned aligned_calls H eq_refl).
Defined.

(** C8 as stated fails where stored packets cover the same lines. The
    loop of [main] takes both datagrams; the frame is then complete with
    height 8, and the lines 4 to 6 of the packet stored for line 3 hold
    what the packet of line 4, later in the dictionary, wrote: pixel
    (4, 0) is palette entry 0 and not entry 1 of the byte 0x11. *)
Lemma C8_overlapping_lines_counterexample :
  parse_video_packet overlap_datagram_1 = Ok (Some overlap_call_1)
  /\ parse_video_packet overlap_datagram_2 = Ok (Some overlap_call_2)
  /\ is_complete (run assembler_init [overlap_call_1; overlap_call_2]) = true
  /\ In (0, (3, repeat x11 768))
        (packets (run assembler_init [overlap_call_1; overlap_call_2]))
  /\ exists f : frame,
       get_frame (run assembler_init [overlap_call_1; overlap_call_2]) = Ok (Some f)
       /\ pixel f 4 0 = Some zero_color
       /\ ~ packet_decoded f 8 3 (repeat x11 768)
       /\ ~ frame_decoded (run assembler_init [overlap_call_1; overlap_call_2]) f.
Proof.
  split; [reflexivity|]. split; [reflexivity|]. split; [reflexivity|].
  split; [now left|].
  set (s := run assembler_init [overlap_call_1; overlap_call_2]).
  assert (Hlines : Forall (fun item => 0 <= fst (snd item)) (packets s)).
  { repeat constructor; cbn; lia. }
  assert (Hh : 0 <= height s) by (change (height s) with 8; lia).
  destruct (get_frame_painted s eq_refl Hh Hlines) as (f & Hget & _ & Hpix).
  assert (H40 : pixel f 4 0 = Some zero_color).
  { rewrite Hpix;
      [|change (height s) with 8; lia|unfold PIXELS_PER_LINE; lia].
    vm_compute. reflexivity. }
  assert (Hnot : ~ packet_decoded f 8 3 (repeat x11 768)).
  { intros Hdec.
    destruct (Hdec 1 0%nat x11 ltac:(unfold LINES_PER_PACKET; lia) ltac:(lia) eq_refl)
      as [Hlo _].
    change (Z.to_nat (3 + 1)) with 4%nat in Hlo. change (2 * 0)%nat with 0%nat in Hlo.
    rewrite H40 in Hlo. vm_compute in Hlo. discriminate Hlo. }
  exists f. split; [exact Hget|]. split; [exact H40|]. split; [exact Hnot|].
  intros (_ & Hdec & _). apply Hnot.
  apply (Hdec 0 3 (repeat x11 768)). now left.
Qed.

(** ** Further properties of the assembler *)

Lemma dict_get_set_eq {V : Type} (k : Z) (v : V) (d : list (Z * V)) :
  dict_get k (dict_set k v d) = Some v.
Proof.
  induction d as [|[k0 v0] d IH]; simpl.
  - now rewrite Z.eqb_refl.
  - destruct (Z.eqb_spec k0 k) as [->|Hne]; simpl.
    + now rewrite Z.eqb_refl.
    + destruct (Z.eqb_spec k0 k); [contradiction|exact IH].
Qed.

Lemma dict_get_set_ne {V : Type} (k k' : Z) (v : V) (d : list (Z * V)) :
  k' <> k -> dict_get k' (dict_set k v d) = dict_get k' d.
Proof.
  intros Hne. induction d as [|[k0 v0] d IH]; simpl.
  - destruct (Z.eqb_spec k k'); [congruence|reflexivity].
  - destruct (Z.eqb_spec k0 k) as [->|Hk]; simpl.
    + destruct (Z.eqb_spec k k'); [congruence|reflexivity].
    + destruct (Z.eqb_spec k0 k'); [reflexivity|exact IH].
Qed.

Lemma dict_set_length {V : Type} (k : Z) (v : V) (d : list (Z * V)) :
  length (dict_set k v d)
  = match dict_get k d with
    | Some _ => length d
    | None => S (length d)
    end.
Proof.
  induction d as [|[k0 v0] d IH]; simpl; [reflexivity|].
  destruct (Z.eqb_spec k0 k); simpl; [reflexivity|].
  rewrite IH. now destruct (dict_get k d).
Qed.

(** X1. After a call of [add_packet] that returns, the dictionary holds
    the pair of the call under the index [line_num // lines_per_packet];
    every other index holds what it held before when the frame number is
    the tracked one, and nothing when the call started a new frame. *)
Theorem add_packet_lookup (s : C64FrameAssembler)
    (frame_num line_num lines_per_packet : Z) (pixel_data : bytes) (is_last : bool) :
  lines_per_packet <> 0 ->
  let s' := fst (add_packet s frame_num line_num lines_per_packet pixel_data is_last) in
  dict_get (line_num / lines_per_packet) (packets s') = Some (line_num, pixel_data)
  /\ forall k : Z,
       k <> line_num / lines_per_packet ->
       dict_get k (packets s')
       = if frame_differs (current_frame_num s) frame_num then None
         else dict_get k (packets s).
Proof.
  intros Hlpp. apply Z.eqb_neq in Hlpp. cbv zeta.
  unfold add_packet, start_frame. rewrite Hlpp.
  destruct (frame_differs (current_frame_num s) frame_num), is_last;
    cbn [fst packets]; (split; [apply dict_get_set_eq|]);
    intros k Hk; now rewrite dict_get_set_ne.
Qed.

Lemma add_packet_lookup_witness :
  let s := run assembler_init [mkCall 7 0 4 [x11] false] in
  let s' := fst (add_packet s 7 4 4 [x22] true) in
  dict_get 1 (packets s') = Some (4, [x22])
  /\ dict_get 0 (packets s') = Some (0, [x11]).
Proof.
  cbv zeta.
  assert (Hlpp : 4 <> 0) by lia.
  destruct (add_packet_lookup (run assembler_init [mkCall 7 0 4 [x11] false])
              7 4 4 [x22] true Hlpp) as [H1 H2].
  split; [exact H1|]. apply (H2 0). change (4 / 4) with 1. lia.
Defined.

(** X2. [add_packet] raises exactly when [lines_per_packet] is zero, and
    then with [ZeroDivisionError]. The assembler is as it was when the
    frame number was the tracked one; with another frame number the
    packets stored so far are gone all the same. *)
Theorem add_packet_zero_division (s : C64FrameAssembler)
    (frame_num line_num lines_per_packet : Z) (pixel_data : bytes) (is_last : bool) :
  let r := add_packet s frame_num line_num lines_per_packet pixel_data is_last in
  (snd r = Some ZeroDivisionError <-> lines_per_packet = 0)
  /\ (lines_per_packet <> 0 -> snd r = None)
  /\ (lines_per_packet = 0 -> current_frame_num s = Some frame_num -> fst r = s)
  /\ (lines_per_packet = 0 -> current_frame_num s <> Some frame_num ->
      fst r = {| current_frame_num := Some frame_num; packets := [];
                 expected_packets := 0; height := height s |}).
Proof.
  cbv zeta. unfold add_packet.
  destruct (Z.eqb_spec lines_per_packet 0) as [E|E].
  - cbn [fst snd]. split; [tauto|]. split; [contradiction|]. split.
    + intros _ Hc. now apply start_frame_again.
    + intros _ Hc. apply frame_differs_true in Hc. unfold start_frame. now rewrite Hc.
  - split.
    + destruct is_last; cbn [snd]; (split; [discriminate|contradiction]).
    + split; [now destruct is_last|]. split; contradiction.
Qed.

Lemma expected_zero_kept (s : C64FrameAssembler) (c : call) :
  expected_packets s = 0 -> c_last c = false ->
  expected_packets (add_call s c) = 0.
Proof.
  intros He HL. unfold add_call, add_packet, start_frame. rewrite HL.
  destruct (Z.eqb (c_lpp c) 0), (frame_differs _ _); cbn; auto.
Qed.

(** X3. A frame whose last-flagged packet does not arrive is never
    complete: from a fresh assembler, or after a packet that starts
    another frame, calls that are not flagged last leave
    [expected_packets] at zero and [is_complete] false. *)
Theorem no_last_packet_no_frame (s : C64FrameAssembler) (cs : list call) :
  expected_packets s = 0 \/
    (exists c cs', cs = c :: cs' /\ current_frame_num s <> Some (c_frame c)) ->
  Forall (fun c => c_last c = false) cs ->
  expected_packets (run s cs) = 0 /\ is_complete (run s cs) = false.
Proof.
  intros Hstart Hall.
  assert (He : expected_packets (run s cs) = 0).
  { destruct Hstart as [He|(c & cs' & -> & Hne)].
    - revert s He. induction Hall as [|c cs HL _ IH]; intros s He; [exact He|].
      simpl. apply IH. now apply expected_zero_kept.
    - inversion Hall as [|? ? HL Hrest]; subst. simpl.
      assert (He : expected_packets (add_call s c) = 0).
      { rewrite add_call_switch by exact Hne. now apply expected_zero_kept. }
      clear Hall Hne. revert He. generalize (add_call s c).
      induction Hrest as [|c2 cs2 HL2 _ IH]; intros t He; [exact He|].
      simpl. apply IH. now apply expected_zero_kept. }
  split; [exact He|]. unfold is_complete. now rewrite He.
Qed.

Lemma no_last_packet_no_frame_witness :
  let s := run assembler_init [mkCall 1 0 4 [] true] in
  let cs := [mkCall 2 0 4 [] false; mkCall 2 4 4 [] false] in
  is_complete s = true /\ is_complete (run s cs) = false.
Proof.
  cbv zeta. split; [reflexivity|].
  apply (no_last_packet_no_frame (run assembler_init [mkCall 1 0 4 [] true])
           [mkCall 2 0 4 [] false; mkCall 2 4 4 [] false]).
  - right. eexists _, _. split; [reflexivity|]. cbn. discriminate.
  - repeat constructor.
Defined.

(** X4. A complete frame stays complete while further packets of the same
    frame arrive that are not flagged last: they only add to the stored
    packets or replace one. *)
Theorem complete_stays_complete (s : C64FrameAssembler) (cs : list call) :
  is_complete s = true ->
  Forall (fun c => current_frame_num s = Some (c_frame c) /\ c_last c = false) cs ->
  is_complete (run s cs) = true
  /\ expected_packets (run s cs) = expected_packets s
  /\ height (run s cs) = height s.
Proof.
  intros Hc Hall. revert s Hc Hall.
  induction cs as [|c cs IH]; intros s Hc Hall; [auto|].
  inversion Hall as [|? ? [Hf HL] Hrest]; subst. simpl.
  assert (Hstep : is_complete (add_call s c) = true
                  /\ expected_packets (add_call s c) = expected_packets s
                  /\ height (add_call s c) = height s
                  /\ current_frame_num (add_call s c) = current_frame_num s).
  { unfold add_call, add_packet. rewrite HL, (start_frame_again s _ Hf).
    destruct (Z.eqb (c_lpp c) 0); cbn [fst]; [auto|].
    cbn [expected_packets height current_frame_num]. repeat split; try reflexivity.
    unfold is_complete in *. cbn [expected_packets packets].
    destruct (Z.eqb (expected_packets s) 0); [discriminate|].
    rewrite dict_set_length.
    apply Z.geb_le in Hc. apply Z.geb_le.
    destruct (dict_get _ (packets s)); lia. }
  destruct Hstep as (Hc' & He' & Hh' & Hcur').
  destruct (IH (add_call s c) Hc') as (H1 & H2 & H3).
  { eapply Forall_impl; [exact Hrest|]. intros c' [Hf' HL']. now rewrite Hcur'. }
  repeat split; congruence.
Qed.

Lemma complete_stays_complete_witness :
  let s := run assembler_init [mkCall 7 0 4 [] true] in
  is_complete s = true
  /\ is_complete (run s [mkCall 7 8 4 [] false; mkCall 7 0 4 [x11] false]) = true.
Proof.
  cbv zeta. split; [reflexivity|].
  apply (complete_stays_complete (run assembler_init [mkCall 7 0 4 [] true])
           [mkCall 7 8 4 [] false; mkCall 7 0 4 [x11] false] eq_refl).
  repeat constructor.
Defined.

Lemma expected_nonneg_kept (s : C64FrameAssembler) (c : call) :
  0 <= c_line c -> 0 <= c_lpp c ->
  0 <= expected_packets s -> 0 <= expected_packets (add_call s c).
Proof.
  intros Hline Hlpp He. unfold add_call, add_packet, start_frame.
  destruct (Z.eqb_spec (c_lpp c) 0) as [E|E];
    destruct (frame_differs _ _), (c_last c); cbn; try lia;
    assert (0 <= c_line c / c_lpp c) by (apply Z.div_pos; lia); lia.
Qed.

(** X5. The two copies of [is_complete] agree on every assembler whose
    expected count is not negative, so after any calls with non-negative
    line numbers and lines per packet; on a negative expected count the
    one of c64_stream_viewer.py answers true and the one of
    c64_stream_viewer_av.py false. *)
Theorem is_complete_copies_agree :
  (forall s : C64FrameAssembler,
     0 <= expected_packets s -> is_complete_av s = is_complete s)
  /\ (forall s : C64FrameAssembler,
        expected_packets s < 0 -> is_complete s = true /\ is_complete_av s = false)
  /\ (forall cs : list call,
        Forall (fun c => 0 <= c_line c /\ 0 <= c_lpp c) cs ->
        is_complete_av (run assembler_init cs) = is_complete (run assembler_init cs)).
Proof.
  assert (H1 : forall s : C64FrameAssembler,
             0 <= expected_packets s -> is_complete_av s = is_complete s).
  { intros s He. unfold is_complete_av, is_complete.
    destruct (Z.eqb_spec (expected_packets s) 0) as [E|E].
    - rewrite E. reflexivity.
    - destruct (Z.ltb_spec 0 (expected_packets s)); [reflexivity|lia]. }
  split; [exact H1|]. split.
  - intros s He. unfold is_complete_av, is_complete.
    destruct (Z.eqb_spec (expected_packets s) 0); [lia|].
    destruct (Z.ltb_spec 0 (expected_packets s)); [lia|].
    split; [|reflexivity]. apply Z.geb_le. lia.
  - intros cs Hall. apply H1.
    induction cs as [|c cs IH] using rev_ind; [cbn; lia|].
    apply Forall_app in Hall as [Hcs Hc]. inversion Hc as [|? ? [Hl Hp] _]; subst.
    rewrite run_snoc. apply expected_nonneg_kept; auto.
Qed.

Lemma is_complete_copies_agree_witness :
  is_complete (fst (add_packet assembler_init 1 (-8) 4 [] true)) = true
  /\ is_complete_av (fst (add_packet assembler_init 1 (-8) 4 [] true)) = false
  /\ is_complete_av (run assembler_init [mkCall 1 0 4 [] true]) = true.
Proof.
  destruct is_complete_copies_agree as (_ & Hneg & Hrun).
  assert (He : expected_packets (fst (add_packet assembler_init 1 (-8) 4 [] true)) < 0)
    by (vm_compute; reflexivity).
  destruct (Hneg _ He) as [Ha Hb].
  split; [exact Ha|]. split; [exact Hb|].
  rewrite (Hrun [mkCall 1 0 4 [] true]); [reflexivity|].
  repeat constructor; vm_compute; discriminate.
Defined.

(** ** The receive loop on arbitrary datagrams *)

Lemma parse_gives_wire_call (data : bytes) (c : call) :
  parse_video_packet data = Ok (Some c) -> wire_call c.
Proof.
  intros Hp.
  destruct (Nat.eq_dec (length data) 780%nat) as [Hlen|Hlen].
  2:{ rewrite parse_video_packet_short in Hp by exact Hlen. discriminate Hp. }
  rewrite (parse_video_packet_780 data Hlen) in Hp.
  destruct (Z.eqb_spec (field_u16 data 6) PIXELS_PER_LINE); [|discriminate Hp].
  destruct (Z.eqb_spec (byte_at data 8) LINES_PER_PACKET) as [E8|]; [|discriminate Hp].
  destruct (Z.eqb_spec (byte_at data 9) 4); [|discriminate Hp].
  cbn [negb orb] in Hp. injection Hp as <-.
  unfold wire_call. cbn [c_frame c_line c_lpp c_data].
  split; [apply field_u16_range|]. split.
  - change 0x7FFF with (Z.ones 15). rewrite Z.land_ones by lia.
    apply Z.mod_pos_bound. lia.
  - split; [exact E8|]. rewrite length_drop, Hlen. reflexivity.
Qed.

(** X6. Every packet the loop hands to the assembler has a frame number
    below 65536, a line number below 32768, four lines per packet and 768
    bytes of pixel data, whatever the datagram was. *)
Theorem parsed_packet_is_wire_call (data : bytes) (c : call) :
  parse_video_packet data = Ok (Some c) ->
  0 <= c_frame c < 65536
  /\ 0 <= c_line c < 32768
  /\ c_lpp c = 4
  /\ length (c_data c) = 768%nat
  /\ c_data c = drop 12 data.
Proof.
  intros Hp. destruct (parse_gives_wire_call data c Hp) as (Hf & Hl & Hlpp & Hn).
  repeat (split; [assumption|]).
  destruct (parse_video_packet_cases data) as [[_ Hp']|[_ (c' & Hp' & _ & _ & Hd & _)]];
    rewrite Hp' in Hp; [discriminate Hp|]. now injection Hp as <-.
Qed.

Lemma parsed_packet_is_wire_call_witness : wire_call (mkCall 7 4 4 (repeat x1a 768) true).
Proof.
  destruct (parsed_packet_is_wire_call sample_datagram
              (mkCall 7 4 4 (repeat x1a 768) true) eq_refl)
    as ([? ?] & [? ?] & Hlpp & Hn & _).
  repeat split; try assumption; exact Hlpp.
Defined.

(** X7. The sequence number (bytes 0 and 1) and the two reserved bytes
    (10 and 11) of a datagram have no effect on what the loop does with
    it: two datagrams that differ in these bytes only are parsed alike. *)
Theorem parse_ignores_sequence_and_reserved
    (s0 s1 t0 t1 r0 r1 u0 u1 : byte) (hdr payload : bytes) :
  length hdr = 8%nat ->
  parse_video_packet (s0 :: s1 :: hdr ++ r0 :: r1 :: payload)
  = parse_video_packet (t0 :: t1 :: hdr ++ u0 :: u1 :: payload).
Proof.
  intros Hlen.
  do 8 (destruct hdr as [|? hdr]; [discriminate Hlen|]).
  destruct hdr; [|discriminate Hlen].
  unfold parse_video_packet. cbn [app length].
  destruct (Z.of_nat _ =? VIDEO_PACKET_SIZE); reflexivity.
Qed.

Lemma parse_ignores_sequence_and_reserved_witness :
  parse_video_packet
    (xff :: xff :: [x07; x00; x04; x80; x80; x01; x04; x04] ++ xaa :: xbb :: repeat x1a 768)
  = parse_video_packet sample_datagram.
Proof.
  apply (parse_ignores_sequence_and_reserved xff xff x00 x00 xaa xbb x00 x00
           [x07; x00; x04; x80; x80; x01; x04; x04] (repeat x1a 768)).
  reflexivity.
Defined.

Lemma assembler_init_wire : wire_state assembler_init.
Proof. split; [constructor|]. intros H. now contradiction H. Qed.

Lemma add_call_wire (s : C64FrameAssembler) (c : call) :
  wire_call c -> wire_state s ->
  wire_state (add_call s c)
  /\ add_packet s (c_frame c) (c_line c) (c_lpp c) (c_data c) (c_last c)
     = (add_call s c, None).
Proof.
  intros (_ & Hline & Hlpp & _) [Hall Hh].
  assert (Hs1 : wire_state (start_frame s (c_frame c))).
  { unfold start_frame. destruct (frame_differs _ _).
    - split; [constructor|]. cbn. intros H. now contradiction H.
    - split; assumption. }
  destruct Hs1 as [Hall1 Hh1].
  unfold add_call, add_packet. rewrite Hlpp. cbn [Z.eqb LINES_PER_PACKET].
  assert (Hitems : Forall (fun item : Z * (Z * bytes) => 0 <= fst (snd item))
            (dict_set (c_line c / 4) (c_line c, c_data c)
               (packets (start_frame s (c_frame c))))).
  { apply dict_set_Forall; [cbn; lia|exact Hall1]. }
  destruct (c_last c); cbn [fst]; (split; [split|reflexivity]);
    cbn [packets expected_packets height]; try exact Hitems.
  - intros _. unfold LINES_PER_PACKET in *. lia.
  - exact Hh1.
Qed.

Lemma main_recv_wire (s : C64FrameAssembler) (data : bytes) :
  wire_state s ->
  exists s' ev,
    main_recv s data = Ok (s', ev) /\ wire_state s' /\ event_ok ev.
Proof.
  intros Hs. unfold main_recv.
  destruct (parse_video_packet_cases data) as [[_ Hp]|[_ (c & Hp & _)]];
    rewrite Hp; cbn [rbind].
  - exists s, Skipped. split; [reflexivity|]. split; [exact Hs|exact I].
  - pose proof (parse_gives_wire_call data c Hp) as Hc.
    destruct (add_call_wire s c Hc Hs) as [Hs1 Hadd]. rewrite Hadd.
    destruct (is_complete (add_call s c)) eqn:Hcomp.
    + destruct Hs1 as [Hlines Hh].
      assert (Hrange : 4 <= height (add_call s c) <= 32771).
      { apply Hh. unfold is_complete in Hcomp.
        destruct (Z.eqb_spec (expected_packets (add_call s c)) 0);
          [discriminate|assumption]. }
      destruct (get_frame_painted (add_call s c) Hcomp ltac:(lia) Hlines)
        as (f & -> & Hshape & _).
      cbn [rbind]. exists assembler_init, (Added c (Some f)).
      split; [reflexivity|]. split; [apply assembler_init_wire|].
      split; [exact Hc|]. exists (height (add_call s c)). split; assumption.
    + exists (add_call s c), (Added c None).
      split; [reflexivity|]. split; [exact Hs1|exact Hc].
Qed.

Lemma main_loop_wire (datagrams : list bytes) (s : C64FrameAssembler) :
  wire_state s ->
  exists s' evs,
    main_loop s datagrams = Ok (s', evs)
    /\ wire_state s'
    /\ length evs = length datagrams
    /\ Forall event_ok evs.
Proof.
  revert s. induction datagrams as [|data rest IH]; intros s Hs.
  - exists s, []. split; [reflexivity|]. split; [exact Hs|]. split; [reflexivity|constructor].
  - cbn [main_loop].
    destruct (main_recv_wire s data Hs) as (s1 & ev & -> & Hs1 & Hev).
    cbn [rbind fst snd].
    destruct (IH s1 Hs1) as (s' & evs & -> & Hs' & Hlen & Hevs).
    cbn [rbind fst snd]. exists s', (ev :: evs).
    split; [reflexivity|]. split; [exact Hs'|].
    split; [cbn; now rewrite Hlen|]. now constructor.
Qed.

(** X8. The receive loop never raises: whatever datagrams arrive, each of
    them is either skipped or handed to [add_packet], no call of
    [add_packet] or [get_frame] raises, and every frame assembled is a
    buffer of 4 to 32771 rows of 384 pixels. *)
Theorem main_loop_never_raises (datagrams : list bytes) :
  exists (s : C64FrameAssembler) (evs : list event),
    main_loop assembler_init datagrams = Ok (s, evs)
    /\ length evs = length datagrams
    /\ Forall event_ok evs.
Proof.
  destruct (main_loop_wire datagrams assembler_init assembler_init_wire)
    as (s & evs & H & _ & Hlen & Hevs).
  now exists s, evs.
Qed.

(** X9. [get_frame] on a complete frame whose height and stored line
    numbers are not negative: it returns a buffer of [height] rows of 384
    pixels in which every pixel is the one the last stored packet, in the
    order of the dictionary, that covers it gave it, and zero where no
    stored packet covers it. *)
Theorem get_frame_last_writer_wins (s : C64FrameAssembler) :
  is_complete s = true ->
  0 <= height s ->
  Forall (fun item => 0 <= fst (snd item)) (packets s) ->
  exists f : frame,
    get_frame s = Ok (Some f)
    /\ shape (Z.to_nat (height s)) f
    /\ forall r x : nat,
         (r < Z.to_nat (height s))%nat -> (x < 384)%nat ->
         pixel f r x = painted (height s) (packets s) r x (Some zero_color).
Proof. intros Hc Hh Hl. exact (get_frame_painted s Hc Hh Hl). Qed.

Lemma get_frame_last_writer_wins_witness :
  exists f : frame,
    get_frame (run assembler_init [overlap_call_1; overlap_call_2]) = Ok (Some f)
    /\ pixel f 3 0 = Some (239, 239, 239)
    /\ pixel f 4 0 = Some (0, 0, 0).
Proof.
  assert (Hl : Forall (fun item : Z * (Z * bytes) => 0 <= fst (snd item))
            (packets (run assembler_init [overlap_call_1; overlap_call_2]))).
  { repeat constructor; vm_compute; discriminate. }
  assert (Hh : 0 <= height (run assembler_init [overlap_call_1; overlap_call_2])).
  { vm_compute; discriminate. }
  destruct (get_frame_last_writer_wins
              (run assembler_init [overlap_call_1; overlap_call_2]) eq_refl Hh Hl)
    as (f & Hget & _ & Hpix).
  exists f. split; [exact Hget|].
  split; (rewrite Hpix; [vm_compute; reflexivity|vm_compute; lia|lia]).
Defined.

(** ** Complete frames without holes *)

Lemma add_call_packets_Forall (P : Z * (Z * bytes) -> Prop)
    (s : C64FrameAssembler) (c : call) :
  (c_lpp c <> 0 -> P (c_line c / c_lpp c, (c_line c, c_data c))) ->
  Forall P (packets s) -> Forall P (packets (add_call s c)).
Proof.
  intros Hc Hs.
  assert (H1 : Forall P (packets (start_frame s (c_frame c)))).
  { unfold start_frame. destruct (frame_differs _ _); [constructor|exact Hs]. }
  unfold add_call, add_packet.
  destruct (Z.eqb_spec (c_lpp c) 0) as [E|E]; [exact H1|].
  destruct (c_last c); cbn [fst packets]; apply dict_set_Forall; auto.
Qed.

Lemma run_packets_Forall (P : Z * (Z * bytes) -> Prop)
    (cs : list call) (s : C64FrameAssembler) :
  Forall (fun c => c_lpp c <> 0 -> P (c_line c / c_lpp c, (c_line c, c_data c))) cs ->
  Forall P (packets s) -> Forall P (packets (run s cs)).
Proof.
  revert s. induction cs as [|c cs IH]; intros s Hall Hs; [exact Hs|].
  inversion Hall; subst. simpl. apply IH; [assumption|].
  now apply add_call_packets_Forall.
Qed.

(** Under aligned calls the height is four times the expected count. *)
Lemma aligned_geometry (cs : list call) :
  Forall aligned_call cs ->
  expected_packets (run assembler_init cs) <> 0 ->
  height (run assembler_init cs) = 4 * expected_packets (run assembler_init cs)
  /\ 0 < expected_packets (run assembler_init cs).
Proof.
  induction cs as [|c cs IH] using rev_ind; intros Hall.
  - cbn. intros H. now contradiction H.
  - apply Forall_app in Hall as [Hcs Hc].
    inversion Hc as [|? ? (Hlpp & Hline & Hmod) _]; subst.
    specialize (IH Hcs). rewrite run_snoc.
    set (s := run assembler_init cs) in *.
    unfold add_call, add_packet, start_frame. rewrite Hlpp.
    unfold LINES_PER_PACKET in *. cbn [Z.eqb].
    destruct (frame_differs (current_frame_num s) (c_frame c)), (c_last c);
      cbn [fst expected_packets height]; intros He; try (now contradiction He);
      try exact (IH He);
      pose proof (Z.div_mod (c_line c) 4);
      assert (0 <= c_line c / 4) by (apply Z.div_pos; lia); lia.
Qed.

(** Distinct keys that all lie in [0, n), at least [n] of them: every
    number of [0, n) is a key. *)
Lemma keys_fill_range (keys : list Z) (n : Z) :
  0 <= n ->
  NoDup keys ->
  Forall (fun k => 0 <= k < n) keys ->
  n <= Z.of_nat (length keys) ->
  Z.of_nat (length keys) = n /\ forall k, 0 <= k < n -> In k keys.
Proof.
  intros Hn Hnd Hall Hlen.
  apply NoDup_ListNoDup in Hnd.
  set (range := map Z.of_nat (seq 0 (Z.to_nat n))).
  assert (Hrange : forall k, In k range <-> 0 <= k < n).
  { intros k. unfold range. rewrite in_map_iff. split.
    - intros (i & <- & Hi). apply in_seq in Hi. lia.
    - intros Hk. exists (Z.to_nat k). split; [lia|]. apply in_seq. lia. }
  assert (Hrl : length range = Z.to_nat n).
  { unfold range. now rewrite length_map, length_seq. }
  assert (Hincl : incl keys range).
  { intros k Hk. apply Hrange. rewrite Forall_forall in Hall.
    apply Hall. now apply list_elem_of_In. }
  pose proof (List.NoDup_incl_length Hnd Hincl) as Hle.
  split; [lia|].
  intros k Hk.
  assert (Hback : incl range keys)
    by (apply (List.NoDup_length_incl Hnd); [lia|exact Hincl]).
  apply Hback. now apply Hrange.
Qed.

Lemma frame_filled (cs : list call) :
  Forall aligned_call cs ->
  is_complete (run assembler_init cs) = true ->
  Forall (fun item => fst item < expected_packets (run assembler_init cs))
         (packets (run assembler_init cs)) ->
  Z.of_nat (length (packets (run assembler_init cs)))
    = expected_packets (run assembler_init cs)
  /\ height (run assembler_init cs) = 4 * expected_packets (run assembler_init cs)
  /\ forall k : Z,
       0 <= k < expected_packets (run assembler_init cs) ->
       exists pixel_data : bytes,
         In (k, (4 * k, pixel_data)) (packets (run assembler_init cs)).
Proof.
  intros Hall Hc Hbelow.
  set (s := run assembler_init cs) in *.
  destruct (run_aligned cs assembler_init Hall assembler_init_aligned)
    as [[Hnd Hitems] _]. fold s in Hnd, Hitems.
  assert (He : expected_packets s <> 0).
  { unfold is_complete in Hc.
    destruct (Z.eqb_spec (expected_packets s) 0); [discriminate|assumption]. }
  assert (Hlen : expected_packets s <= Z.of_nat (length (packets s))).
  { unfold is_complete in Hc.
    destruct (Z.eqb (expected_packets s) 0); [discriminate|].
    now apply Z.geb_le in Hc. }
  destruct (aligned_geometry cs Hall He) as [Hh Hpos]. fold s in Hh, Hpos.
  assert (Hkeys : Forall (fun k => 0 <= k < expected_packets s) (map fst (packets s))).
  { apply Forall_forall. intros k Hk.
    apply list_elem_of_In, in_map_iff in Hk as (item & <- & Hin).
    apply list_elem_of_In in Hin.
    rewrite Forall_forall in Hitems, Hbelow.
    destruct (Hitems _ Hin) as [H0 _]. pose proof (Hbelow _ Hin). lia. }
  destruct (keys_fill_range (map fst (packets s)) (expected_packets s)
              ltac:(lia) Hnd Hkeys) as [Hn Hfill]; [now rewrite length_map|].
  rewrite length_map in Hn.
  split; [exact Hn|]. split; [exact Hh|].
  intros k Hk. apply Hfill, in_map_iff in Hk as ([k' [line data]] & Hfst & Hin).
  cbn [fst] in Hfst. subst k'. exists data.
  rewrite Forall_forall in Hitems.
  destruct (Hitems _ (proj2 (list_elem_of_In _ _) Hin)) as [_ Hline].
  cbn [fst snd] in Hline. unfold LINES_PER_PACKET in Hline. now subst line.
Qed.

(** X10. A complete frame built from aligned packets of which none lies
    beyond the last-flagged one has no hole: the stored packets are
    exactly those of the indices 0 to [expected_packets - 1], each at the
    line four times its index, and the height is four times their
    number. *)
Theorem complete_frame_without_holes (cs : list call) :
  Forall aligned_call cs ->
  is_complete (run assembler_init cs) = true ->
  Forall (fun item => fst item < expected_packets (run assembler_init cs))
         (packets (run assembler_init cs)) ->
  Z.of_nat (length (packets (run assembler_init cs)))
    = expected_packets (run assembler_init cs)
  /\ height (run assembler_init cs) = 4 * expected_packets (run assembler_init cs)
  /\ forall k : Z,
       0 <= k < expected_packets (run assembler_init cs) ->
       exists pixel_data : bytes,
         In (k, (4 * k, pixel_data)) (packets (run assembler_init cs)).
Proof. exact (frame_filled cs). Qed.

Lemma complete_frame_without_holes_witness :
  Z.of_nat (length (packets (run assembler_init aligned_calls))) = 2
  /\ height (run assembler_init aligned_calls) = 8.
Proof.
  assert (Hall : Forall aligned_call aligned_calls)
    by (repeat constructor; vm_compute; try reflexivity; discriminate).
  assert (Hb : Forall (fun item => fst item < expected_packets (run assembler_init aligned_calls))
                 (packets (run assembler_init aligned_calls)))
    by (repeat constructor; vm_compute; reflexivity).
  destruct (complete_frame_without_holes aligned_calls Hall eq_refl Hb) as (H1 & H2 & _).
  split; [exact H1|exact H2].
Defined.

Lemma sub_line_lookup (pixel_data : bytes) (off j : nat) :
  (j < 192)%nat ->
  sub_line pixel_data (Z.of_nat off) !! j = pixel_data !! (off * 192 + j)%nat.
Proof.
  intros Hj. unfold sub_line, py_slice, BYTES_PER_LINE.
  replace (Z.of_nat off * 192 + 192 - Z.of_nat off * 192) with 192 by lia.
  change (Z.to_nat 192) with 192%nat.
  rewrite lookup_take_lt by exact Hj. rewrite lookup_drop.
  f_equal. lia.
Qed.

(** X11. A full frame decodes pixel by pixel: for a complete frame of
    aligned packets with 768 bytes each, none beyond the last-flagged
    one, the pixel at row [r], column [x] of the buffer is the palette
    entry of the low ([x] even) or high ([x] odd) nibble of byte
    [(r mod 4) * 192 + x / 2] of the packet stored under index [r / 4]. *)
Theorem full_frame_decodes (cs : list call) :
  Forall aligned_call cs ->
  Forall (fun c => length (c_data c) = 768%nat) cs ->
  is_complete (run assembler_init cs) = true ->
  Forall (fun item => fst item < expected_packets (run assembler_init cs))
         (packets (run assembler_init cs)) ->
  exists f : frame,
    get_frame (run assembler_init cs) = Ok (Some f)
    /\ shape (Z.to_nat (height (run assembler_init cs))) f
    /\ forall r x : nat,
         Z.of_nat r < height (run assembler_init cs) -> (x < 384)%nat ->
         exists (pixel_data : bytes) (b : byte),
           In (Z.of_nat (r / 4), (4 * Z.of_nat (r / 4), pixel_data))
              (packets (run assembler_init cs))
           /\ pixel_data !! ((r mod 4) * 192 + x / 2)%nat = Some b
           /\ pixel f r x = Some (if Nat.even x then low_color b else high_color b).
Proof.
  intros Hall Hpay Hc Hbelow.
  destruct (frame_filled cs Hall Hc Hbelow) as (_ & Hh & Hfill).
  set (s := run assembler_init cs) in *.
  assert (Hlens : Forall (fun item : Z * (Z * bytes) => length (snd (snd item)) = 768%nat)
            (packets s)).
  { apply run_packets_Forall; [|constructor].
    eapply Forall_impl; [exact Hpay|]. intros c Hlen _. exact Hlen. }
  destruct (proj2 (get_frame_aligned s
              (run_aligned cs assembler_init Hall assembler_init_aligned)) Hc)
    as (f & Hget & Hshape & Hdec & _).
  exists f. split; [exact Hget|]. split; [exact Hshape|].
  intros r x Hr Hx.
  pose proof (Nat.div_mod_eq r 4) as Hr4.
  pose proof (Nat.mod_upper_bound r 4 ltac:(lia)) as Hm4.
  destruct (Hfill (Z.of_nat (r / 4)) ltac:(lia)) as (data & Hin).
  assert (Hlen : length data = 768%nat).
  { rewrite Forall_forall in Hlens. apply list_elem_of_In in Hin.
    exact (Hlens _ Hin). }
  pose proof (Nat.div_mod_eq x 2) as Hx2.
  pose proof (Nat.mod_upper_bound x 2 ltac:(lia)) as Hm2.
  assert (Hj : (x / 2 < 192)%nat) by lia.
  destruct (lookup_lt_is_Some_2 data ((r mod 4) * 192 + x / 2)%nat) as [b Hb]; [lia|].
  exists data, b. split; [exact Hin|]. split; [exact Hb|].
  destruct (Hdec _ _ _ Hin (Z.of_nat (r mod 4)) (x / 2)%nat b) as [Hlo Hhi].
  { unfold LINES_PER_PACKET. lia. }
  { lia. }
  { rewrite sub_line_lookup by exact Hj. exact Hb. }
  replace (Z.to_nat (4 * Z.of_nat (r / 4) + Z.of_nat (r mod 4))) with r in Hlo, Hhi by lia.
  destruct (Nat.even x) eqn:E.
  - apply Nat.even_spec in E as [m ->].
    replace (2 * m / 2)%nat with m in Hlo
      by (rewrite (Nat.mul_comm 2 m), Nat.div_mul by lia; reflexivity).
    exact Hlo.
  - assert (Ho : Nat.odd x = true) by (rewrite <- Nat.negb_even, E; reflexivity).
    apply Nat.odd_spec in Ho as [m ->].
    replace ((2 * m + 1) / 2)%nat with m in Hhi.
    2:{ rewrite (Nat.add_comm (2 * m) 1), (Nat.mul_comm 2 m), Nat.div_add by lia.
        reflexivity. }
    exact Hhi.
Qed.

Lemma full_frame_decodes_witness :
  exists f : frame,
    get_frame (run assembler_init aligned_calls) = Ok (Some f)
    /\ pixel f 5 11 = Some (239, 239, 239).
Proof.
  assert (Hall : Forall aligned_call aligned_calls)
    by (repeat constructor; vm_compute; try reflexivity; discriminate).
  assert (Hpay : Forall (fun c => length (c_data c) = 768%nat) aligned_calls)
    by (repeat constructor).
  assert (Hb : Forall (fun item => fst item < expected_packets (run assembler_init aligned_calls))
                 (packets (run assembler_init aligned_calls)))
    by (repeat constructor; vm_compute; reflexivity).
  destruct (full_frame_decodes aligned_calls Hall Hpay eq_refl Hb) as (f & Hget & _ & Hpix).
  exists f. split; [exact Hget|].
  destruct (Hpix 5%nat 11%nat) as (data & b & Hin & Hb' & Hp).
  { vm_compute. reflexivity. }
  { lia. }
  rewrite Hp. clear Hp Hpix Hget.
  destruct Hin as [E|[E|[]]]; [discriminate E|].
  injection E as <-. vm_compute in Hb'. injection Hb' as <-. reflexivity.
Defined.

(** ** The palette conversion *)

Lemma land_ff_range (x : Z) : 0 <= Z.land x 0xFF < 256.
Proof.
  change 0xFF with (Z.ones 8). rewrite Z.land_ones by lia.
  apply Z.mod_pos_bound. lia.
Qed.

Lemma channel_ignores_alpha (x k : Z) :
  0 <= k <= 16 ->
  Z.land (Z.shiftr (Z.land x 0xFFFFFF) k) 0xFF = Z.land (Z.shiftr x k) 0xFF.
Proof.
  intros Hk. apply Z.bits_inj'. intros n Hn.
  rewrite !Z.land_spec, !Z.shiftr_spec, Z.land_spec by lia.
  change 0xFF with (Z.ones 8). change 0xFFFFFF with (Z.ones 24).
  destruct (Z.lt_ge_cases n 8) as [Hlt|Hge].
  - rewrite (Z.ones_spec_low 24 (n + k)) by lia. now rewrite andb_true_r.
  - rewrite (Z.ones_spec_high 8 n) by lia. now rewrite !andb_false_r.
Qed.

(** X12. For every BGRA word the palette conversion yields three channels
    in 0..255, so that they fit the [uint8] buffer; the alpha byte plays
    no part; and the (r, g, b) tuples of the audio/video and Wayland
    viewers are the (b, g, r) tuples of c64_stream_viewer.py read
    backwards, entry by entry of the 16-colour tables. *)
Theorem palette_conversion (bgra : Z) :
  (exists b g r : Z,
     bgra_to_bgr bgra = (b, g, r)
     /\ bgra_to_rgb bgra = (r, g, b)
     /\ 0 <= b < 256 /\ 0 <= g < 256 /\ 0 <= r < 256)
  /\ bgra_to_bgr (Z.land bgra 0xFFFFFF) = bgra_to_bgr bgra
  /\ length VIC_COLORS_BGR = 16%nat
  /\ length VIC_COLORS_RGB = 16%nat
  /\ VIC_COLORS_RGB = map (fun c : color => (snd c, snd (fst c), fst (fst c))) VIC_COLORS_BGR.
Proof.
  split; [|split; [|repeat split]].
  - eexists _, _, _. split; [reflexivity|]. split; [reflexivity|].
    repeat split; apply land_ff_range.
  - unfold bgra_to_bgr.
    pose proof (channel_ignores_alpha bgra 0 ltac:(lia)) as H0.
    rewrite !Z.shiftr_0_r in H0.
    now rewrite H0, !channel_ignores_alpha by lia.
Qed.

(** ** The stream commands in general *)

Lemma bytearray_append_ok (cmd : bytes) (v : Z) :
  0 <= v < 256 ->
  exists b : byte, bytearray_append cmd v = Ok (cmd ++ [b]) /\ byte_val b = v.
Proof.
  intros Hv. unfold bytearray_append.
  destruct (Z.ltb_spec v 0); [lia|].
  destruct (Byte.of_N (Z.to_N v)) as [b|] eqn:E.
  - exists b. split; [reflexivity|].
    apply Byte.to_of_N in E. unfold byte_val. rewrite E. lia.
  - apply Byte.of_N_None_iff in E. lia.
Qed.

Lemma bytearray_append_err (cmd : bytes) (v : Z) :
  ~ 0 <= v < 256 -> bytearray_append cmd v = Raise ValueError.
Proof.
  intros Hv. unfold bytearray_append.
  destruct (Z.ltb_spec v 0); [reflexivity|].
  destruct (Byte.of_N (Z.to_N v)) as [b|] eqn:E; [|reflexivity].
  apply Byte.to_of_N in E. pose proof (Byte.to_N_bounded b). lia.
Qed.

(** X13. The start command, where it is built: the byte [0x20 + stream_id],
    0xFF, the parameter length [2 + len(ip:port)] modulo 65536 in two
    little-endian bytes (the length itself while it is below 65536),
    two zero bytes for the duration and then the ASCII bytes of
    [ip:port]; in all six bytes more than the address text. *)
Theorem start_command_layout (host : string) (stream_id : Z)
    (local_ip : string) (port : Z) (ip_port_bytes : bytes) :
  encode_ascii (local_ip ++ ":" ++ py_str_int port)%string = Ok ip_port_bytes ->
  0 <= 0x20 + stream_id < 256 ->
  exists b0 len_lo len_hi : byte,
    send_ultimate64_stream_command host stream_id true local_ip port
      = Ok (b0 :: xff :: len_lo :: len_hi :: x00 :: x00 :: ip_port_bytes)
    /\ byte_val b0 = 0x20 + stream_id
    /\ byte_val len_lo + 256 * byte_val len_hi
       = (2 + Z.of_nat (length ip_port_bytes)) mod 65536
    /\ (2 + Z.of_nat (length ip_port_bytes) < 65536 ->
        byte_val len_lo + 256 * byte_val len_hi = 2 + Z.of_nat (length ip_port_bytes)).
Proof.
  intros Henc Hid. unfold send_ultimate64_stream_command. rewrite Henc. cbn [rbind].
  set (n := 2 + Z.of_nat (length ip_port_bytes)).
  assert (Hn : 0 <= n) by (unfold n; lia).
  destruct (bytearray_append_ok [] (0x20 + stream_id) Hid) as (b0 & -> & Hb0).
  cbn [rbind app].
  assert (Hlo : 0 <= Z.land n 0xFF < 256) by apply land_ff_range.
  assert (Hhi : 0 <= Z.land (Z.shiftr n 8) 0xFF < 256) by apply land_ff_range.
  change (bytearray_append [b0] 255) with (Ok (A:=bytes) [b0; xff]). cbn [rbind].
  destruct (bytearray_append_ok [b0; xff] _ Hlo) as (lo & -> & Hblo).
  cbn [rbind app].
  destruct (bytearray_append_ok [b0; xff; lo] _ Hhi) as (hi & -> & Hbhi).
  cbn [rbind app].
  change (bytearray_append [b0; xff; lo; hi] 0) with (Ok (A:=bytes) [b0; xff; lo; hi; x00]).
  cbn [rbind].
  change (bytearray_append [b0; xff; lo; hi; x00] 0)
    with (Ok (A:=bytes) [b0; xff; lo; hi; x00; x00]).
  cbn [rbind app].
  exists b0, lo, hi. split; [reflexivity|]. split; [exact Hb0|].
  assert (Hlen : byte_val lo + 256 * byte_val hi = n mod 65536).
  { rewrite Hblo, Hbhi. change 0xFF with (Z.ones 8).
    rewrite !Z.land_ones, Z.shiftr_div_pow2 by lia.
    change (2 ^ 8) with 256.
    pose proof (Z.div_mod n 256 ltac:(lia)).
    pose proof (Z.mod_pos_bound n 256 ltac:(lia)).
    pose proof (Z.div_mod (n / 256) 256 ltac:(lia)).
    pose proof (Z.mod_pos_bound (n / 256) 256 ltac:(lia)).
    apply Z.mod_unique_pos with (q := n / 256 / 256); lia. }
  split; [exact Hlen|].
  intros Hsmall. rewrite Hlen. apply Z.mod_small. lia.
Qed.

Lemma start_command_layout_witness :
  exists b0 len_lo len_hi : byte,
    send_ultimate64_stream_command "u64" 1 true "192.168.68.62" 11001
      = Ok (b0 :: xff :: len_lo :: len_hi :: x00 :: x00
               :: list_byte_of_string "192.168.68.62:11001")
    /\ byte_val b0 = 0x21
    /\ byte_val len_lo + 256 * byte_val len_hi = 21.
Proof.
  destruct (start_command_layout "u64" 1 "192.168.68.62" 11001
              (list_byte_of_string "192.168.68.62:11001") eq_refl)
    as (b0 & lo & hi & H & Hb & _ & Hlen).
  { lia. }
  exists b0, lo, hi. split; [exact H|]. split; [exact Hb|].
  apply Hlen. vm_compute. reflexivity.
Defined.

(** X14. What makes the command builder raise: an address text that is
    not ASCII raises [UnicodeEncodeError] before any byte is built, and a
    stream id whose command byte [0x20 + stream_id] (start) or
    [0x30 + stream_id] (stop) is not in 0..255 raises [ValueError]. *)
Theorem stream_command_errors (host : string) (stream_id : Z)
    (local_ip : string) (port : Z) :
  (forall e : exn,
     encode_ascii (local_ip ++ ":" ++ py_str_int port)%string = Raise e ->
     e = UnicodeEncodeError
     /\ send_ultimate64_stream_command host stream_id true local_ip port
        = Raise UnicodeEncodeError)
  /\ (forall bs : bytes,
        encode_ascii (local_ip ++ ":" ++ py_str_int port)%string = Ok bs ->
        ~ 0 <= 0x20 + stream_id < 256 ->
        send_ultimate64_stream_command host stream_id true local_ip port
        = Raise ValueError)
  /\ (~ 0 <= 0x30 + stream_id < 256 ->
      send_ultimate64_stream_command host stream_id false local_ip port
      = Raise ValueError).
Proof.
  split; [|split].
  - intros e He.
    assert (e = UnicodeEncodeError).
    { unfold encode_ascii in He. destruct (forallb _ _); [discriminate He|].
      now injection He as <-. }
    subst e. split; [reflexivity|].
    unfold send_ultimate64_stream_command. now rewrite He.
  - intros bs He Hid. unfold send_ultimate64_stream_command. rewrite He. cbn [rbind].
    now rewrite bytearray_append_err.
  - intros Hid. unfold send_ultimate64_stream_command.
    now rewrite bytearray_append_err.
Qed.

Lemma stream_command_errors_witness :
  send_ultimate64_stream_command "u64" 0 true (String (Ascii.ascii_of_nat 233) "") 11000
    = Raise UnicodeEncodeError
  /\ send_ultimate64_stream_command "u64" 224 true "10.0.0.5" 11000 = Raise ValueError
  /\ send_ultimate64_stream_command "u64" (-49) false "10.0.0.5" 11000 = Raise ValueError.
Proof.
  split; [|split].
  - apply (proj1 (stream_command_errors "u64" 0 (String (Ascii.ascii_of_nat 233) "") 11000)
             UnicodeEncodeError). reflexivity.
  - apply (proj1 (proj2 (stream_command_errors "u64" 224 "10.0.0.5" 11000))
             (list_byte_of_string "10.0.0.5:11000")); [reflexivity|lia].
  - apply (proj2 (proj2 (stream_command_errors "u64" (-49) "10.0.0.5" 11000))). lia.
Defined.

(** X15. The stop command does not depend on the host, the address or
    the port, and where its command byte is in 0..255 it is the four
    bytes [0x30 + stream_id], 0xFF, 0x00, 0x00. *)
Theorem stop_command_layout (stream_id : Z) :
  (forall (host host' local_ip local_ip' : string) (port port' : Z),
     send_ultimate64_stream_command host stream_id false local_ip port
     = send_ultimate64_stream_command host' stream_id false local_ip' port')
  /\ (0 <= 0x30 + stream_id < 256 ->
      exists b0 : byte,
        byte_val b0 = 0x30 + stream_id
        /\ forall (host local_ip : string) (port : Z),
             send_ultimate64_stream_command host stream_id false local_ip port
             = Ok [b0; xff; x00; x00]).
Proof.
  split; [reflexivity|].
  intros Hid.
  destruct (bytearray_append_ok [] (0x30 + stream_id) Hid) as (b0 & Hb & Hv).
  exists b0. split; [exact Hv|].
  intros host local_ip port. unfold send_ultimate64_stream_command.
  rewrite Hb. reflexivity.
Qed.

Lemma stop_command_layout_witness :
  exists b0 : byte,
    byte_val b0 = 0x30
    /\ send_ultimate64_stream_command "u64" 0 false "10.0.0.5" 11000 = Ok [b0; xff; x00; x00].
Proof.
  destruct (proj2 (stop_command_layout 0)) as (b0 & Hv & H); [lia|].
  exists b0. split; [exact Hv|apply H].
Defined.

(** ** The DC blocker as the source computes it *)

Lemma pair_ind {A : Type} (P : list A -> Prop) :
  P [] -> (forall x, P [x]) -> (forall x y l, P l -> P (x :: y :: l)) ->
  forall l, P l.
Proof.
  intros H0 H1 H2.
  fix IH 1. intros [|x [|y l]]; [exact H0|apply H1|apply H2, IH].
Qed.

Lemma reshape2_spec (a : list Z) :
  if Nat.even (length a) then
    exists stereo, reshape2 a = Ok stereo /\ length a = (2 * length stereo)%nat
  else reshape2 a = Raise ValueError.
Proof.
  induction a as [| |x y l IH] using pair_ind.
  - exists []. split; reflexivity.
  - reflexivity.
  - cbn [length reshape2]. change (Nat.even (S (S (length l)))) with (Nat.even (length l)).
    destruct (Nat.even (length l)).
    + destruct IH as (stereo & -> & Hlen). cbn [rbind].
      exists ((x, y) :: stereo). split; [reflexivity|]. cbn [length]. lia.
    + rewrite IH. reflexivity.
Qed.

Lemma reshape2_snoc (pre : list Z) (l r : Z) (stereo : list (Z * Z)) :
  reshape2 (pre ++ [l; r]) = Ok stereo ->
  exists stereo', stereo = stereo' ++ [(l, r)].
Proof.
  revert stereo. induction pre as [| |x y pre IH] using pair_ind; intros stereo H.
  - cbn in H. injection H as <-. now exists [].
  - cbn in H. discriminate H.
  - cbn [app reshape2] in H.
    destruct (reshape2 (pre ++ [l; r])) as [t|] eqn:E; [|discriminate H].
    cbn [rbind] in H. injection H as <-.
    destruct (IH t eq_refl) as (t' & ->). now exists ((x, y) :: t').
Qed.

Lemma dc_rows_spec (last : Z * Z) (rows : list (Z * Z)) :
  forall (state : Q * Q) (prev : option (Q * Q)),
    length (fst (dc_rows last state prev rows)) = length rows
    /\ snd (dc_rows last state prev rows)
       = match rows with
         | [] => state
         | _ :: _ => (inject_Z (fst last), inject_Z (snd last))
         end.
Proof.
  induction rows as [|[l r] rest IH]; intros state prev; [split; reflexivity|].
  cbn [dc_rows].
  specialize (IH (inject_Z (fst last), inject_Z (snd last))
                 (Some (dc_sample l (fst state) (option_map fst prev),
                        dc_sample r (snd state) (option_map snd prev)))).
  destruct (dc_rows last _ _ rest) as [out st]. cbn [fst snd length] in *.
  destruct IH as [Hlen Hst]. split; [now rewrite Hlen|].
  rewrite Hst. now destruct rest.
Qed.

Lemma remove_dc_offset_cases (dc_filter_state : Q * Q) (audio_array : list Z) :
  (Nat.even (length audio_array) = false ->
   _remove_dc_offset dc_filter_state audio_array = Raise ValueError)
  /\ (Nat.even (length audio_array) = true ->
      exists (rows : list (Z * Z)) (state' : Q * Q),
        _remove_dc_offset dc_filter_state audio_array = Ok (rows, state')
        /\ length audio_array = (2 * length rows)%nat
        /\ (audio_array = [] -> state' = dc_filter_state)
        /\ forall (pre : list Z) (l r : Z),
             audio_array = pre ++ [l; r] -> state' = (inject_Z l, inject_Z r)).
Proof.
  pose proof (reshape2_spec audio_array) as Hr.
  split; intros He; rewrite He in Hr.
  - unfold _remove_dc_offset. now rewrite Hr.
  - destruct Hr as (stereo & Hre & Hlen).
    unfold _remove_dc_offset. rewrite Hre. cbn [rbind].
    pose proof (dc_rows_spec (List.last stereo (0, 0)) stereo dc_filter_state None)
      as [Hl Hs].
    destruct (dc_rows (List.last stereo (0, 0)) dc_filter_state None stereo)
      as [filtered st] eqn:E.
    cbn [fst snd] in Hl, Hs.
    eexists _, _. split; [reflexivity|].
    split; [now rewrite length_map, Hl|]. split.
    + intros ->. cbn in Hre. injection Hre as <-. exact Hs.
    + intros pre l r ->.
      destruct (reshape2_snoc pre l r stereo Hre) as (stereo' & ->).
      rewrite List.last_last in Hs. rewrite Hs.
      now destruct stereo'.
Qed.

(** X16. [_remove_dc_offset] raises [ValueError] on an odd number of
    samples and otherwise returns one output pair for every input pair.
    On no samples the filter state stays as it was; otherwise the state
    afterwards is the last input pair of the packet, whatever the state
    before and the samples before that pair were. *)
Theorem remove_dc_offset_shape (dc_filter_state : Q * Q) (audio_array : list Z) :
  (Nat.even (length audio_array) = false ->
   _remove_dc_offset dc_filter_state audio_array = Raise ValueError)
  /\ (Nat.even (length audio_array) = true ->
      exists (rows : list (Z * Z)) (state' : Q * Q),
        _remove_dc_offset dc_filter_state audio_array = Ok (rows, state')
        /\ length audio_array = (2 * length rows)%nat
        /\ (audio_array = [] -> state' = dc_filter_state)
        /\ forall (pre : list Z) (l r : Z),
             audio_array = pre ++ [l; r] -> state' = (inject_Z l, inject_Z r)).
Proof. exact (remove_dc_offset_cases dc_filter_state audio_array). Qed.

Lemma remove_dc_offset_shape_witness :
  exists (rows : list (Z * Z)) (state' : Q * Q),
    _remove_dc_offset dc_filter_init [5; -7; 100; 200] = Ok (rows, state')
    /\ length rows = 2%nat
    /\ state' = (inject_Z 100, inject_Z 200).
Proof.
  destruct (proj2 (remove_dc_offset_shape dc_filter_init [5; -7; 100; 200]) eq_refl)
    as (rows & st & H & Hlen & _ & Hst).
  exists rows, st. split; [exact H|]. split; [cbn in Hlen; lia|].
  apply (Hst [5; -7]). reflexivity.
Defined.

Lemma astype_clip_range (y : Q) : int16_range (astype_int16 (np_clip y)).
Proof.
  unfold np_clip, int16_range.
  destruct (Qle_bool y (-32768 # 1)) eqn:E1; [vm_compute; split; discriminate|].
  destruct (Qle_bool (32767 # 1) y) eqn:E2; [vm_compute; split; discriminate|].
  unfold Qle_bool in E1, E2. cbn [Qnum Qden] in E1, E2.
  apply Z.leb_gt in E1, E2.
  unfold astype_int16. destruct y as [n d]. cbn [Qnum Qden] in *.
  pose proof (Z.quot_rem' n (Z.pos d)) as Hqr.
  destruct (Z.le_gt_cases 0 n) as [Hn|Hn].
  - pose proof (Z.rem_bound_pos n (Z.pos d) Hn ltac:(lia)).
    pose proof (Z.quot_pos n (Z.pos d) Hn ltac:(lia)). nia.
  - pose proof (Z.rem_nonpos n (Z.pos d) ltac:(lia) ltac:(lia)).
    pose proof (Z.rem_bound_abs n (Z.pos d) ltac:(lia)). nia.
Qed.

(** X17. Every sample [_remove_dc_offset] returns is in the [int16]
    range -32768..32767, whatever the input samples and the filter state. *)
Theorem remove_dc_offset_int16 (dc_filter_state : Q * Q) (audio_array : list Z)
    (rows : list (Z * Z)) (state' : Q * Q) :
  _remove_dc_offset dc_filter_state audio_array = Ok (rows, state') ->
  Forall (fun row => int16_range (fst row) /\ int16_range (snd row)) rows.
Proof.
  unfold _remove_dc_offset. intros H.
  destruct (reshape2 audio_array) as [stereo|]; [|discriminate H]. cbn [rbind] in H.
  destruct (dc_rows _ _ _ stereo) as [filtered st]. injection H as <- _.
  apply Forall_forall. intros row Hrow.
  apply list_elem_of_In, in_map_iff in Hrow as (y & <- & _).
  split; apply astype_clip_range.
Qed.

Lemma remove_dc_offset_int16_witness :
  exists rows state',
    _remove_dc_offset dc_filter_init [32767; -32768; -32768; 32767] = Ok (rows, state')
    /\ Forall (fun row => int16_range (fst row) /\ int16_range (snd row)) rows.
Proof.
  eexists _, _. split; [vm_compute; reflexivity|].
  eapply (remove_dc_offset_int16 dc_filter_init [32767; -32768; -32768; 32767]).
  vm_compute. reflexivity.
Defined.

Lemma reshape2_steady (l r : Z) (n : nat) :
  reshape2 (steady_packet l r n) = Ok (repeat (l, r) n).
Proof.
  induction n as [|n IH]; [reflexivity|].
  unfold steady_packet in *. cbn [repeat concat app reshape2].
  now rewrite IH.
Qed.

Lemma zero_num_sample (y : Q) : Qnum y = 0 -> astype_int16 (np_clip y) = 0.
Proof.
  intros Hy. unfold np_clip, Qle_bool. rewrite Hy. cbn [Qnum Qden].
  destruct (Z.leb_spec (0 * 1) (-32768 * Z.pos (Qden y))); [lia|].
  destruct (Z.leb_spec (32767 * Z.pos (Qden y)) (0 * 1)); [lia|].
  unfold astype_int16. rewrite Hy. apply Z.quot_0_l. lia.
Qed.

Lemma dc_sample_steady (v : Z) (prev : option Q) :
  match prev with Some p => Qnum p = 0 | None => True end ->
  Qnum (dc_sample v (inject_Z v) prev) = 0.
Proof.
  intros Hp. unfold dc_sample. destruct prev as [p|]; cbn.
  - rewrite Hp. lia.
  - lia.
Qed.

Lemma dc_rows_steady (l r : Z) (last : Z * Z) (n : nat) :
  forall prev : option (Q * Q),
    match prev with
    | Some p => Qnum (fst p) = 0 /\ Qnum (snd p) = 0
    | None => True
    end ->
    last = (l, r) ->
    map to_int16_row
        (fst (dc_rows last (inject_Z l, inject_Z r) prev (repeat (l, r) n)))
    = repeat (0, 0) n.
Proof.
  induction n as [|n IH]; intros prev Hprev ->; [reflexivity|].
  cbn [repeat dc_rows fst snd].
  set (yl := dc_sample l (inject_Z l) (option_map fst prev)).
  set (yr := dc_sample r (inject_Z r) (option_map snd prev)).
  assert (Hyl : Qnum yl = 0).
  { apply dc_sample_steady. destruct prev as [[p q]|]; cbn; [apply Hprev|exact I]. }
  assert (Hyr : Qnum yr = 0).
  { apply dc_sample_steady. destruct prev as [[p q]|]; cbn; [apply Hprev|exact I]. }
  specialize (IH (Some (yl, yr)) (conj Hyl Hyr) eq_refl).
  destruct (dc_rows (l, r) (inject_Z l, inject_Z r) (Some (yl, yr)) (repeat (l, r) n))
    as [out st]. cbn [fst map] in *.
  rewrite IH. unfold to_int16_row. cbn [fst snd].
  now rewrite !zero_num_sample.
Qed.

(** X18. A steady level is silenced: once a packet has ended with the
    pair [(l, r)], a packet that holds this pair throughout comes out as
    zeros on both channels, and the filter state stays at that pair. *)
Theorem steady_level_is_silenced (dc_filter_state : Q * Q) (pre : list Z) (l r : Z)
    (rows : list (Z * Z)) (state' : Q * Q) (n : nat) :
  _remove_dc_offset dc_filter_state (pre ++ [l; r]) = Ok (rows, state') ->
  _remove_dc_offset state' (steady_packet l r n) = Ok (repeat (0, 0) n, state').
Proof.
  intros H1.
  assert (Hst : state' = (inject_Z l, inject_Z r)).
  { destruct (Nat.even (length (pre ++ [l; r]))) eqn:E.
    - destruct (proj2 (remove_dc_offset_cases dc_filter_state (pre ++ [l; r])) E)
        as (rows0 & st0 & H0 & _ & _ & Hlast).
      rewrite H0 in H1. injection H1 as _ <-. now apply (Hlast pre).
    - rewrite (proj1 (remove_dc_offset_cases dc_filter_state (pre ++ [l; r])) E) in H1.
      discriminate H1. }
  subst state'. unfold _remove_dc_offset. rewrite reshape2_steady. cbn [rbind].
  pose proof (dc_rows_spec (List.last (repeat (l, r) n) (0, 0)) (repeat (l, r) n)
                (inject_Z l, inject_Z r) None) as [_ Hs].
  destruct n as [|n]; [reflexivity|].
  assert (Hlast : List.last (repeat (l, r) (S n)) (0, 0) = (l, r)).
  { clear. induction n as [|n IH]; [reflexivity|].
    change (repeat (l, r) (S (S n))) with ((l, r) :: repeat (l, r) (S n)).
    cbn [List.last]. exact IH. }
  rewrite Hlast in *.
  pose proof (dc_rows_steady l r (l, r) (S n) None I eq_refl) as Hout.
  destruct (dc_rows (l, r) (inject_Z l, inject_Z r) None (repeat (l, r) (S n)))
    as [filtered st]. cbn [fst snd] in Hout, Hs.
  rewrite Hout. cbn [repeat] in Hs. now rewrite Hs.
Qed.

Lemma steady_level_is_silenced_witness :
  exists rows state',
    _remove_dc_offset dc_filter_init [3; 4; 1000; -1000] = Ok (rows, state')
    /\ _remove_dc_offset state' (steady_packet 1000 (-1000) 192)
       = Ok (repeat (0, 0) 192, state').
Proof.
  eexists _, _. split; [vm_compute; reflexivity|].
  apply (steady_level_is_silenced dc_filter_init [3; 4] 1000 (-1000)
           [(3, 4); (2, 3)]).
  vm_compute. reflexivity.
Defined.

(** ** From the audio datagram to the filtered samples *)

Lemma int16le_range (lo hi : byte) : int16_range (int16le lo hi).
Proof.
  unfold int16le, int16_range, u16le.
  pose proof (byte_val_range lo). pose proof (byte_val_range hi).
  destruct (Z.ltb_spec (byte_val lo + 256 * byte_val hi) 32768); lia.
Qed.

Lemma np_frombuffer_int16_spec (b : bytes) :
  if Nat.even (length b) then
    exists a, np_frombuffer_int16 b = Ok a
              /\ length b = (2 * length a)%nat
              /\ Forall int16_range a
  else np_frombuffer_int16 b = Raise ValueError.
Proof.
  induction b as [| |x y l IH] using pair_ind.
  - exists []. repeat split. constructor.
  - reflexivity.
  - cbn [length np_frombuffer_int16].
    change (Nat.even (S (S (length l)))) with (Nat.even (length l)).
    destruct (Nat.even (length l)).
    + destruct IH as (a & -> & Hlen & Hall). cbn [rbind].
      exists (int16le x y :: a). split; [reflexivity|]. split; [cbn [length]; lia|].
      constructor; [apply int16le_range|exact Hall].
    + rewrite IH. reflexivity.
Qed.

(** X19. An audio datagram of any other length than 770 bytes is left
    out. One of 770 bytes hands the 768 bytes after its 2-byte header to
    the player, where they read as 384 samples of the [int16] range and,
    whatever the filter state, [_remove_dc_offset] returns 192 stereo
    pairs without raising. *)
Theorem audio_datagram_path (data : bytes) (dc_filter_state : Q * Q) :
  (length data <> 770%nat -> audio_payload data = None)
  /\ (length data = 770%nat ->
      exists audio_data : bytes,
        audio_payload data = Some audio_data
        /\ audio_data = drop 2 data
        /\ length audio_data = 768%nat
        /\ exists (audio_array : list Z) (rows : list (Z * Z)) (state' : Q * Q),
             np_frombuffer_int16 audio_data = Ok audio_array
             /\ length audio_array = 384%nat
             /\ Forall int16_range audio_array
             /\ play_audio_filter dc_filter_state audio_data = Ok (rows, state')
             /\ length rows = 192%nat).
Proof.
  unfold audio_payload, AUDIO_PACKET_SIZE. split.
  - intros Hlen. destruct (Z.eqb_spec (Z.of_nat (length data)) 770); [lia|reflexivity].
  - intros Hlen. rewrite Hlen. cbn [Z.of_nat Z.eqb Pos.of_succ_nat].
    change (Z.of_nat 770 =? 770) with true. cbn iota.
    assert (Hslice : py_slice data AUDIO_HEADER_SIZE (AUDIO_HEADER_SIZE + 768) = drop 2 data).
    { unfold py_slice, AUDIO_HEADER_SIZE.
      change (Z.to_nat (2 + 768 - 2)) with 768%nat. change (Z.to_nat 2) with 2%nat.
      apply take_ge. rewrite length_drop, Hlen. lia. }
    rewrite Hslice.
    assert (Hn : length (drop 2 data) = 768%nat) by (rewrite length_drop, Hlen; reflexivity).
    exists (drop 2 data). split; [reflexivity|]. split; [reflexivity|]. split; [exact Hn|].
    pose proof (np_frombuffer_int16_spec (drop 2 data)) as Hfb. rewrite Hn in Hfb.
    change (Nat.even 768) with true in Hfb. cbn iota in Hfb.
    destruct Hfb as (a & Ha & Hla & Hrange).
    assert (Hla' : length a = 384%nat) by lia.
    destruct (proj2 (remove_dc_offset_cases dc_filter_state a)) as (rows & st & Hr & Hlr & _).
    { rewrite Hla'. reflexivity. }
    exists a, rows, st. split; [exact Ha|]. split; [exact Hla'|]. split; [exact Hrange|].
    unfold play_audio_filter. rewrite Ha. cbn [rbind]. split; [exact Hr|]. lia.
Qed.

Lemma audio_datagram_path_witness :
  exists audio_data rows state',
    audio_payload (repeat x01 770) = Some audio_data
    /\ play_audio_filter dc_filter_init audio_data = Ok (rows, state')
    /\ length rows = 192%nat.
Proof.
  destruct (proj2 (audio_datagram_path (repeat x01 770) dc_filter_init))
    as (d & Hp & _ & _ & a & rows & st & _ & _ & _ & Hf & Hl).
  { apply repeat_length. }
  exists d, rows, st. split; [exact Hp|]. split; [exact Hf|exact Hl].
Defined.

(** ** The audio queue *)

Lemma received_app (evs evs' : list audio_event) :
  received (evs ++ evs') = received evs ++ received evs'.
Proof.
  induction evs as [|[d|] evs IH]; cbn; [reflexivity| |exact IH].
  now rewrite IH.
Qed.

(** X20. The audio queue never holds more than 20 packets, and what has
    been played followed by what is queued is, in this order, a
    subsequence of the packets received: packets are played in the order
    of arrival, none twice, and only packets are missing that arrived
    while 20 were queued. *)
Theorem audio_queue_bounded_fifo (evs : list audio_event) :
  (length (audio_queue (audio_run evs)) <= 20)%nat
  /\ (played (audio_run evs) ++ audio_queue (audio_run evs)) `sublist_of` received evs
  /\ forall (d : bytes),
       (length (audio_queue (audio_run evs)) < 20)%nat ->
       audio_queue (audio_run (evs ++ [Received d])) = audio_queue (audio_run evs) ++ [d].
Proof.
  assert (H : (length (audio_queue (audio_run evs)) <= 20)%nat
              /\ (played (audio_run evs) ++ audio_queue (audio_run evs))
                   `sublist_of` received evs).
  { induction evs as [|ev evs IH] using rev_ind.
    - split; [cbn; lia|reflexivity].
    - unfold audio_run in *. rewrite fold_left_app, received_app. cbn [fold_left].
      destruct IH as [Hlen Hsub].
      set (st := fold_left audio_step evs (mkAudio [] [])) in *.
      destruct ev as [d|]; cbn [audio_step received audio_queue played].
      + unfold add_audio_packet.
        destruct (Nat.ltb_spec (length (audio_queue st)) 20).
        * split; [rewrite length_app; cbn; lia|].
          rewrite app_assoc. now apply sublist_app.
        * split; [exact Hlen|]. now apply sublist_inserts_r.
      + rewrite app_nil_r. destruct (audio_queue st) as [|d q] eqn:Eq.
        * split; [rewrite Eq; cbn; lia|]. now rewrite Eq.
        * cbn [audio_queue played]. split; [cbn in Hlen; lia|].
          now rewrite <- app_assoc. }
  split; [apply H|]. split; [apply H|].
  intros d Hlt. unfold audio_run. rewrite fold_left_app. cbn [fold_left audio_step audio_queue].
  unfold add_audio_packet. fold (audio_run evs).
  destruct (Nat.ltb_spec (length (audio_queue (audio_run evs))) 20); [reflexivity|lia].
Qed.
